(** * LAIS Vegas poker client: shallow embedding and verified properties

    The development embeds three Python sources:
    - [examples/python/lais_vegas.py]  (modules [Sdk], [Parse] and [Rest]):
      cards, [HandState], the proof-of-work solver and the event dispatch of
      the full SDK, its parser of game states and its REST client;
    - [examples/python/simple_bot.py]  (modules [Bot] and [SimpleBot]): the
      preflop evaluator, the decision policy and the bot's event handlers;
    - [public/sdk/lais_vegas.py]       (modules [PublicSdk] and
      [QuickStart]): the socket handlers of the quick-start SDK.

    Python [int] is [Z], [str] is [string] (its UTF-8 bytes), [float] is the
    kernel's binary64 [float], a [dict] is a [gmap], a [list] is a [list];
    a decoded JSON payload with nested objects is a [Json.json].
    Code that can raise returns an [outcome]. *)

From Stdlib Require Import ZArith String Ascii List Lia.
From Stdlib Require Import PrimFloat SpecFloat FloatOps DecimalString.
From stdpp Require Import gmap strings list.

Open Scope Z_scope.

(** ** Exceptions and outcomes *)

(** A raised Python exception, by the branch of the class tree it sits in:
    [Exc] is an instance of [Exception] (what [except Exception] catches),
    [BaseExc] an instance of [BaseException] outside [Exception]
    ([KeyboardInterrupt], [SystemExit], [GeneratorExit]).  Both carry the
    class name and the text [str(e)] gives. *)
Inductive exn : Type :=
  | Exc (cls msg : string)
  | BaseExc (cls msg : string).

Definition exn_str (e : exn) : string :=
  match e with
  | Exc _ msg => msg
  | BaseExc _ msg => msg
  end.

Definition is_Exception (e : exn) : bool :=
  match e with
  | Exc _ _ => true
  | BaseExc _ _ => false
  end.

Inductive outcome (A : Type) : Type :=
  | Return (a : A)
  | Raise (e : exn).
Arguments Return {A} a.
Arguments Raise {A} e.

#[global] Instance outcome_ret : MRet outcome := @Return.
#[global] Instance outcome_bind : MBind outcome :=
  fun A B (f : A -> outcome B) (m : outcome A) =>
    match m with
    | Return a => f a
    | Raise e => Raise e
    end.

(** [l[i]] for a non-negative constant [i]. *)
Definition index {A : Type} (l : list A) (i : nat) : outcome A :=
  match l !! i with
  | Some x => Return x
  | None => Raise (Exc "IndexError" "list index out of range")
  end.

(** Stateful code that can raise: the state reached is kept on both exits,
    as an exception leaves the writes made before it in place. *)
Definition PyM (S A : Type) : Type := S -> outcome A * S.

#[global] Instance PyM_ret {S} : MRet (PyM S) := fun A a s => (Return a, s).
#[global] Instance PyM_bind {S} : MBind (PyM S) :=
  fun A B (f : A -> PyM S B) (m : PyM S A) s =>
    match m s with
    | (Return a, s') => f a s'
    | (Raise e, s') => (Raise e, s')
    end.

(** A pure computation run inside stateful code. *)
Definition lift {S A} (o : outcome A) : PyM S A := fun s => (o, s).

(** [try: body / except Exception as e: handler(e)]: an exception outside
    the [Exception] branch passes through. *)
Definition try_except_Exception {S A} (body : PyM S A) (handler : exn -> PyM S A)
  : PyM S A :=
  fun s =>
    match body s with
    | (Raise e, s') => if is_Exception e then handler e s' else (Raise e, s')
    | done => done
    end.

(** [for x in l: body(x)] *)
Fixpoint for_each {S A} (l : list A) (body : A -> PyM S unit) : PyM S unit :=
  match l with
  | [] => mret tt
  | x :: rest => body x ≫= fun _ => for_each rest body
  end.

(** ** Python values *)

(** JSON data of event payloads, and the opaque callables and library
    objects an attribute can hold. *)
#[local] Set Warnings "-register-all".
Inductive pyval : Type :=
  | PNone
  | PBool (b : bool)
  | PInt (n : Z)
  | PStr (s : string)
  | PList (l : list pyval)
  | PCallable (name : string)
  | PObject (cls : string).
#[local] Set Warnings "register-all".

(** Truth value testing ([if x:]). *)
Definition truthy (v : pyval) : bool :=
  match v with
  | PNone => false
  | PBool b => b
  | PInt n => negb (n =? 0)
  | PStr s => negb (String.eqb s "")
  | PList l => match l with [] => false | _ => true end
  | PCallable _ => true
  | PObject _ => true
  end.

(** [d.get(key, dflt)] *)
Definition dict_get (d : gmap string pyval) (key : string) (dflt : pyval) : pyval :=
  default dflt (d !! key).

(** [str(n)] for an [int]. *)
Definition str_int (n : Z) : string := NilZero.string_of_int (Z.to_int n).

(** [sep.join(parts)]. *)
Fixpoint join (sep : string) (parts : list string) : string :=
  match parts with
  | [] => ""
  | [p] => p
  | p :: rest => p +:+ sep +:+ join sep rest
  end.

(** ** Mixed [int]/[float] arithmetic, as CPython performs it *)

(** [float(n)]: round to nearest, ties to even; [OverflowError] when the
    rounded value leaves binary64. *)
Definition int_to_float (n : Z) : outcome float :=
  match binary_normalize 53 1024 n 0 false with
  | S754_infinity _ => Raise (Exc "OverflowError" "int too large to convert to float")
  | sf => Return (SF2Prim sf)
  end.

(** [n * f] with [n : int], [f : float]: the integer is converted first. *)
Definition int_mul_float (n : Z) (f : float) : outcome float :=
  x ← int_to_float n; Return (PrimFloat.mul x f).

(** [a <= f] with [a : int], [f : float]: CPython compares the exact values. *)
Definition int_le_float (a : Z) (f : float) : bool :=
  match Prim2SF f with
  | S754_zero _ => a <=? 0
  | S754_infinity s => negb s
  | S754_nan => false
  | S754_finite s m e =>
      let v := if s then Z.neg m else Z.pos m in
      if 0 <=? e then a <=? v * 2 ^ e else a * 2 ^ (- e) <=? v
  end.

(** ** SHA-256 (FIPS 180-4), the digest [hashlib.sha256] computes *)

Module Sha256.

Definition w32 (x : Z) : Z := x mod 2 ^ 32.
Definition rotr (n x : Z) : Z := Z.lor (Z.shiftr x n) (w32 (Z.shiftl x (32 - n))).
Definition Ch (x y z : Z) : Z := Z.lxor (Z.land x y) (Z.land (Z.lxor x (2 ^ 32 - 1)) z).
Definition Maj (x y z : Z) : Z := Z.lxor (Z.lxor (Z.land x y) (Z.land x z)) (Z.land y z).
Definition Sigma0 (x : Z) : Z := Z.lxor (Z.lxor (rotr 2 x) (rotr 13 x)) (rotr 22 x).
Definition Sigma1 (x : Z) : Z := Z.lxor (Z.lxor (rotr 6 x) (rotr 11 x)) (rotr 25 x).
Definition sigma0 (x : Z) : Z := Z.lxor (Z.lxor (rotr 7 x) (rotr 18 x)) (Z.shiftr x 3).
Definition sigma1 (x : Z) : Z := Z.lxor (Z.lxor (rotr 17 x) (rotr 19 x)) (Z.shiftr x 10).

Definition is_prime (n : nat) : bool :=
  forallb (fun d => negb (Nat.eqb (n mod d) 0)) (seq 2 (n - 2)).

(** The first 64 primes: 2, 3, 5, ..., 311. *)
Definition primes : list Z :=
  Eval vm_compute in map Z.of_nat (filter (fun n => is_prime n) (seq 2 310)).

(** Integer cube root, one result bit per step from bit [bits - 1] down. *)
Fixpoint icbrt_from (bits : nat) (n r : Z) : Z :=
  match bits with
  | O => r
  | S b =>
      let c := r + 2 ^ Z.of_nat b in
      icbrt_from b n (if c * c * c <=? n then c else r)
  end.

(** The round constants: the first 32 bits of the fractional parts of the
    cube roots of the first 64 primes. *)
Definition K : list Z :=
  Eval vm_compute in map (fun p => w32 (icbrt_from 40 (p * 2 ^ 96) 0)) primes.

(** The initial hash value: the same of the square roots of the first 8. *)
Definition H0 : list Z :=
  Eval vm_compute in map (fun p => w32 (Z.sqrt (p * 2 ^ 64))) (take 8 primes).

Definition bytes_of (s : string) : list Z :=
  map (fun a => Z.of_N (N_of_ascii a)) (list_ascii_of_string s).

Definition be_bytes (width : nat) (n : Z) : list Z :=
  map (fun i => Z.land (Z.shiftr n (8 * Z.of_nat i)) 255) (rev (seq 0 width)).

Definition pad (msg : list Z) : list Z :=
  let len := Z.of_nat (length msg) in
  msg ++ [128] ++ repeat 0 (Z.to_nat ((55 - len) mod 64)) ++ be_bytes 8 (8 * len).

Fixpoint words (bs : list Z) : list Z :=
  match bs with
  | a :: b :: c :: d :: rest =>
      (Z.shiftl a 24 + Z.shiftl b 16 + Z.shiftl c 8 + d) :: words rest
  | _ => []
  end.

Fixpoint blocks (n : nat) (ws : list Z) : list (list Z) :=
  match n with
  | O => []
  | S n' => take 16 ws :: blocks n' (drop 16 ws)
  end.

Record regs : Type := mkRegs { ra : Z; rb : Z; rc : Z; rd : Z; re : Z; rf : Z; rg : Z; rh : Z }.

(** One round; [w] holds the sixteen schedule words W[t .. t+15]. *)
Definition round (st : regs * list Z) (k : Z) : regs * list Z :=
  let (r, w) := st in
  let wt := nth 0 w 0 in
  let t1 := w32 (rh r + Sigma1 (re r) + Ch (re r) (rf r) (rg r) + k + wt) in
  let t2 := w32 (Sigma0 (ra r) + Maj (ra r) (rb r) (rc r)) in
  let next := w32 (sigma1 (nth 14 w 0) + nth 9 w 0 + sigma0 (nth 1 w 0) + wt) in
  (mkRegs (w32 (t1 + t2)) (ra r) (rb r) (rc r) (w32 (rd r + t1)) (re r) (rf r) (rg r),
   tail w ++ [next]).

Definition regs_of (h : list Z) : regs :=
  mkRegs (nth 0 h 0) (nth 1 h 0) (nth 2 h 0) (nth 3 h 0)
         (nth 4 h 0) (nth 5 h 0) (nth 6 h 0) (nth 7 h 0).

Definition regs_list (r : regs) : list Z :=
  [ra r; rb r; rc r; rd r; re r; rf r; rg r; rh r].

Definition compress (h : list Z) (block : list Z) : list Z :=
  let r := fst (fold_left round K (regs_of h, block)) in
  zip_with (fun x y => w32 (x + y)) h (regs_list r).

Definition digest_words (msg : list Z) : list Z :=
  let ws := words (pad msg) in
  fold_left compress (blocks (length ws / 16) ws) H0.

Definition hex_digit (d : Z) : ascii :=
  nth (Z.to_nat d) (list_ascii_of_string "0123456789abcdef") "0"%char.

Definition hex_byte (b : Z) : list ascii := [hex_digit (b / 16); hex_digit (b mod 16)].

(** [hashlib.sha256(data).hexdigest()] *)
Definition hexdigest (data : string) : string :=
  string_of_list_ascii
    (concat (map hex_byte (concat (map (be_bytes 4) (digest_words (bytes_of data)))))).

End Sha256.

(** ** examples/python/lais_vegas.py: data model *)

Module Sdk.

Record Card : Type := mkCard { suit : string; rank : string }.

Definition symbols : gmap string string :=
  list_to_map [("hearts", "♥"); ("diamonds", "♦"); ("clubs", "♣"); ("spades", "♠")].

(** [Card.__str__] *)
Definition Card_str (c : Card) : string :=
  rank c +:+ default (suit c) (symbols !! suit c).

Record HandState : Type := mkHandState {
  phase : string;
  pot : Z;
  community_cards : list Card;
  your_cards : list Card;
  your_bet : Z;
  current_bet : Z;
  your_chips : Z;
  is_your_turn : bool;
  active_players : Z;
  players : list (gmap string pyval)
}.

(** The [call_amount] property: computed on every read, not a field. *)
Definition call_amount (self : HandState) : Z :=
  Z.max 0 (current_bet self - your_bet self).

(** *** Proof of work *)

(** The [while True] loop of [solve_pow], from [nonce]; [fuel] bounds the
    number of iterations and [None] means it was used up.  The [_log] calls
    print (under [debug]) and report wall-clock time; they do not reach the
    returned value and are left out. *)
Fixpoint solve_pow_loop (fuel : nat) (seed target_prefix : string) (nonce : Z)
  : option string :=
  match fuel with
  | O => None
  | S fuel' =>
      let test := seed +:+ str_int nonce in
      let hash_result := Sha256.hexdigest test in
      if String.prefix target_prefix hash_result then Some (str_int nonce)
      else solve_pow_loop fuel' seed target_prefix (nonce + 1)
  end.

Definition solve_pow (fuel : nat) (seed target_prefix : string) : option string :=
  solve_pow_loop fuel seed target_prefix 0.

(** [pow_ok seed target_prefix n]: the digest of [seed] followed by the
    decimal [n] starts with [target_prefix]. *)
Definition pow_ok (seed target_prefix : string) (n : Z) : bool :=
  String.prefix target_prefix (Sha256.hexdigest (seed +:+ str_int n)).

(** *** Event handlers *)

(** What the process does that the outside sees. *)
Inductive effect : Type :=
  | Printed (line : string)
  | Called (handler : string) (data : gmap string pyval).

(** A registered callback.  It is user code: [hcall] is what calling it on a
    payload results in; it is taken not to touch the client's registry. *)
Record handler : Type := mkHandler {
  hname : string;
  hcall : gmap string pyval -> outcome unit
}.

Record LAISVegas : Type := mkLAISVegas {
  api_key : option string;
  base_url : string;
  debug : bool;
  current_table : option string;
  agent_id : option string;
  _event_handlers : gmap string (list handler)
}.

Definition print (line : string) : PyM (list effect) unit :=
  fun out => (Return tt, out ++ [Printed line]).

Definition call_handler (h : handler) (data : gmap string pyval)
  : PyM (list effect) unit :=
  fun out => (hcall h data, out ++ [Called (hname h) data]).

Definition _log (self : LAISVegas) (msg : string) : PyM (list effect) unit :=
  if debug self then print ("[LAIS] " +:+ msg) else mret tt.

Definition on (self : LAISVegas) (event : string) (h : handler) : LAISVegas :=
  let registered :=
    match _event_handlers self !! event with
    | None => <[event := []]> (_event_handlers self)
    | Some _ => _event_handlers self
    end in
  mkLAISVegas (api_key self) (base_url self) (debug self) (current_table self)
    (agent_id self)
    (<[event := default [] (registered !! event) ++ [h]]> registered).

(** The handlers registered for [event], in registration order. *)
Definition handlers_for (self : LAISVegas) (event : string) : list handler :=
  default [] (_event_handlers self !! event).

(** The names of the handlers an output trace shows as called, in order. *)
Definition called (out : list effect) : list string :=
  flat_map (fun e => match e with Called h _ => [h] | Printed _ => [] end) out.

Definition _trigger (self : LAISVegas) (event : string) (data : gmap string pyval)
  : PyM (list effect) unit :=
  let handlers := default [] (_event_handlers self !! event) in
  for_each handlers (fun h =>
    try_except_Exception (call_handler h data)
      (fun e => _log self ("Handler error: " +:+ exn_str e))).

End Sdk.

(** ** examples/python/simple_bot.py: evaluator and decision policy *)

Module Bot.
Import Sdk.

Definition RANK_VALUES : gmap string Z :=
  list_to_map
    [("2", 2); ("3", 3); ("4", 4); ("5", 5); ("6", 6); ("7", 7); ("8", 8);
     ("9", 9); ("10", 10); ("J", 11); ("Q", 12); ("K", 13); ("A", 14)].

Definition rank_value (r : string) : Z := default 0 (RANK_VALUES !! r).

(** The strings [evaluate_preflop] can return. *)
Definition tiers : list string := ["premium"; "good"; "playable"; "weak"].

Definition evaluate_preflop (cards : list Card) : outcome string :=
  if (length cards <? 2)%nat then Return "weak" else
  c1 ← index cards 0;
  c2 ← index cards 1;
  let r1 := rank_value (rank c1) in
  let r2 := rank_value (rank c2) in
  let is_pair := String.eqb (rank c1) (rank c2) in
  let is_suited := String.eqb (suit c1) (suit c2) in
  let high := Z.max r1 r2 in
  let low := Z.min r1 r2 in
  let gap := high - low in
  if is_pair && (12 <=? high) then Return "premium"
  else if (high =? 14) && (low =? 13) && is_suited then Return "premium"
  else if is_pair && (10 <=? high) then Return "good"
  else if (high =? 14) && (12 <=? low) then Return "good"
  else if (high =? 13) && (low =? 12) && is_suited then Return "good"
  else if is_pair && (7 <=? high) then Return "playable"
  else if is_suited && (gap <=? 2) && (8 <=? high) then Return "playable"
  else if is_suited && (high =? 14) then Return "playable"
  else Return "weak".

(** The float literals of the policy, as binary64 values. *)
Definition f0_1 : float := 0x1.999999999999ap-4%float.
Definition f0_05 : float := 0x1.999999999999ap-5%float.
Definition f0_5 : float := 0x1p-1%float.
Definition f0_3 : float := 0x1.3333333333333p-2%float.
Definition f0_2 : float := 0x1.999999999999ap-3%float.
Definition f0_4 : float := 0x1.999999999999ap-2%float.

(** What [decide_action] returns: [(action, amount, reasoning)]. *)
Definition decision : Type := string * option Z * string.

(** [rnd] is the value [random.random()] yields; every path through the
    function draws at most once. *)
Definition decide_action (state : HandState) (rnd : float) : outcome decision :=
  waiting ← (match your_cards state with
             | [] => Return true
             | _ => c ← index (your_cards state) 0; Return (String.eqb (rank c) "?")
             end);
  if waiting : bool then Return ("check", None, "Waiting for cards") else
  hand_strength ← evaluate_preflop (your_cards state);
  let call_amount := call_amount state in
  let pot := pot state in
  let chips := your_chips state in
  let cards_str := join " " (map Card_str (your_cards state)) in
  let community_str :=
    match community_cards state with
    | [] => "none"
    | _ => join " " (map Card_str (community_cards state))
    end in
  if String.eqb (phase state) "preflop" then
    if String.eqb hand_strength "premium" then
      let raise_amount := Z.min (pot * 3) chips in
      Return ("raise", Some raise_amount,
              "Premium hand (" +:+ cards_str +:+ "), raising to build pot")
    else if String.eqb hand_strength "good" then
      if call_amount =? 0 then
        let raise_amount := Z.min (current_bet state + pot / 2) chips in
        Return ("raise", Some raise_amount,
                "Good hand (" +:+ cards_str +:+ "), raising for value")
      else
        limit ← int_mul_float chips f0_1;
        if int_le_float call_amount limit then
          Return ("call", None, "Good hand (" +:+ cards_str +:+ "), calling small raise")
        else
          Return ("call", None, "Good hand (" +:+ cards_str +:+ "), calling")
    else if String.eqb hand_strength "playable" then
      if call_amount =? 0 then
        if PrimFloat.ltb rnd f0_3 then
          let raise_amount := current_bet state + current_bet state / 2 in
          Return ("raise", Some raise_amount,
                  "Playable hand (" +:+ cards_str +:+ "), mixing in a raise")
        else
          Return ("check", None, "Playable hand (" +:+ cards_str +:+ "), checking")
      else
        limit ← int_mul_float chips f0_05;
        if int_le_float call_amount limit then
          Return ("call", None, "Playable hand (" +:+ cards_str +:+ "), calling small bet")
        else
          Return ("fold", None, "Playable hand (" +:+ cards_str +:+ "), but raise too big")
    else
      if call_amount =? 0 then
        if PrimFloat.ltb rnd f0_2 then
          Return ("check", None, "Weak hand (" +:+ cards_str +:+ "), limping")
        else
          Return ("check", None, "Weak hand (" +:+ cards_str +:+ "), checking")
      else
        Return ("fold", None, "Weak hand (" +:+ cards_str +:+ "), folding to aggression")
  else
    if call_amount =? 0 then
      if PrimFloat.ltb rnd f0_3 then
        let bet_amount := Z.min (pot / 2) chips in
        Return ("raise", Some bet_amount,
                "Betting " +:+ str_int bet_amount +:+ " with board: " +:+ community_str)
      else
        Return ("check", None, "Checking board: " +:+ community_str)
    else
      limit ← int_mul_float pot f0_5;
      if int_le_float call_amount limit then
        if String.eqb hand_strength "premium" || String.eqb hand_strength "good"
           || PrimFloat.ltb rnd f0_4 then
          Return ("call", None,
                  "Calling " +:+ str_int call_amount +:+ " with board: " +:+ community_str)
        else
          Return ("fold", None, "Folding to bet, board: " +:+ community_str)
      else
        if String.eqb hand_strength "premium" then
          Return ("call", None,
                  "Calling big bet with strong hand, board: " +:+ community_str)
        else
          Return ("fold", None, "Folding to big bet, board: " +:+ community_str).

End Bot.

(** ** public/sdk/lais_vegas.py: the quick-start client *)

Module PublicSdk.

(** The client object is its attribute dictionary: reading a name that was
    never assigned raises [AttributeError]. *)
Definition getattr (name : string) : PyM (gmap string pyval) pyval :=
  fun self =>
    match self !! name with
    | Some v => (Return v, self)
    | None =>
        (Raise (Exc "AttributeError"
                  ("'LAISVegas' object has no attribute '" +:+ name +:+ "'")), self)
    end.

Definition setattr (name : string) (v : pyval) : PyM (gmap string pyval) unit :=
  fun self => (Return tt, <[name := v]> self).

(** Calling a value.  [user] is the behaviour of the callbacks the caller
    registered, by name; they are taken not to write the client's attributes. *)
Definition call (user : string -> list pyval -> outcome pyval)
    (f : pyval) (args : list pyval) : PyM (gmap string pyval) pyval :=
  match f with
  | PCallable name => lift (user name args)
  | _ => lift (Raise (Exc "TypeError" "object is not callable"))
  end.

(** [LAISVegas.__init__] *)
Definition init (api_key url : string) : gmap string pyval :=
  <["_on_hand_end_callback" := PNone]>
  (<["_on_hand_start_callback" := PNone]>
  (<["_on_turn_callback" := PNone]>
  (<["chips" := PInt 0]>
  (<["community_cards" := PList []]>
  (<["my_cards" := PList []]>
  (<["my_seat" := PNone]>
  (<["agent_id" := PNone]>
  (<["sio" := PObject "socketio.Client"]>
  (<["url" := PStr url]>
  (<["api_key" := PStr api_key]> ∅)))))))))).

(** The [hand:start] handler. *)
Definition on_hand_start (user : string -> list pyval -> outcome pyval)
    (data : gmap string pyval) : PyM (gmap string pyval) unit :=
  _ ← setattr "my_cards" (dict_get data "yourCards" (PList []));
  _ ← setattr "community_cards" (PList []);
  cb ← getattr "_on_hand_start_callback";
  if truthy cb then
    cards ← getattr "my_cards";
    _ ← call user cb [cards];
    mret tt
  else mret tt.

(** The [phase] handler. *)
Definition on_phase (data : gmap string pyval) : PyM (gmap string pyval) unit :=
  setattr "community_cards" (dict_get data "communityCards" (PList [])).

(** [LAISVegas.on_hand_start]: the decorator that registers the callback. *)
Definition register_on_hand_start (callback : string)
  : PyM (gmap string pyval) pyval :=
  _ ← setattr "_on_hand_start_callback" (PCallable callback);
  mret (PCallable callback).

End PublicSdk.

(** ** public/sdk/lais_vegas.py: joining a table and acting on a turn *)

Module QuickStart.
Import PublicSdk.

(** [a == b].  [None] equals only [None]; a [bool] compares as the integer
    0 or 1; lists compare element by element; a callable or a library
    object equals only itself, and the model tells those apart by name. *)
Fixpoint py_eq (a b : pyval) : bool :=
  match a, b with
  | PNone, PNone => true
  | PBool x, PBool y => Bool.eqb x y
  | PBool x, PInt n => (if x then 1 else 0) =? n
  | PInt n, PBool x => n =? (if x then 1 else 0)
  | PInt m, PInt n => m =? n
  | PStr s, PStr t => String.eqb s t
  | PList l, PList k =>
      (fix all_eq (l k : list pyval) : bool :=
         match l, k with
         | [], [] => true
         | x :: l', y :: k' => py_eq x y && all_eq l' k'
         | _, _ => false
         end) l k
  | PCallable f, PCallable g => String.eqb f g
  | PObject c, PObject d => String.eqb c d
  | _, _ => false
  end.

(** The class name an error message shows: the last component of the
    dotted name. *)
Fixpoint has_dot (s : string) : bool :=
  match s with
  | EmptyString => false
  | String c rest => Ascii.eqb c "." || has_dot rest
  end.

Fixpoint short_name (cls : string) : string :=
  match cls with
  | EmptyString => EmptyString
  | String c rest => if has_dot cls then short_name rest else cls
  end.

(** [type(v).__name__] *)
Definition type_name (v : pyval) : string :=
  match v with
  | PNone => "NoneType"
  | PBool _ => "bool"
  | PInt _ => "int"
  | PStr _ => "str"
  | PList _ => "list"
  | PCallable _ => "function"
  | PObject cls => short_name cls
  end.

(** The [auth:success] handler. *)
Definition on_auth (data : gmap string pyval) : PyM (gmap string pyval) unit :=
  setattr "agent_id" (dict_get data "agentId" PNone).

(** The [table:joined] handler. *)
Definition on_joined (data : gmap string pyval) : PyM (gmap string pyval) unit :=
  _ ← setattr "my_seat" (dict_get data "seat" PNone);
  setattr "chips" (dict_get data "chips" (PInt 0)).

(** [LAISVegas.on_turn]: the decorator that registers the callback. *)
Definition register_on_turn (callback : string) : PyM (gmap string pyval) pyval :=
  _ ← setattr "_on_turn_callback" (PCallable callback);
  mret (PCallable callback).

(** A handler's step on the attributes, run in a state that also holds the
    actions emitted so far. *)
Definition on_attrs {A B} (m : PyM (gmap string pyval) A)
  : PyM (gmap string pyval * list B) A :=
  fun w => match m (fst w) with (r, self) => (r, (self, snd w)) end.

Section Turn.
(** What the turn callback returns; the client passes it on unread. *)
Variable action : Type.
(** The turn callback, by name, on its keyword arguments; like the other
    callbacks it is taken not to write the client's attributes. *)
Variable user_turn : string -> list (string * pyval) -> outcome action.
(** [sio.emit('action', a)], given the actions emitted before: it returns,
    or raises when the payload cannot be sent. *)
Variable sio_emit : list action -> action -> outcome unit.

Definition call_turn (f : pyval) (kwargs : list (string * pyval))
  : PyM (gmap string pyval * list action) action :=
  match f with
  | PCallable name => lift (user_turn name kwargs)
  | _ => lift (Raise (Exc "TypeError"
                        ("'" +:+ type_name f +:+ "' object is not callable")))
  end.

(** [self.sio.emit('action', a)]: only the socket client has an [emit]. *)
Definition _send_action (a : action) : PyM (gmap string pyval * list action) unit :=
  sio ← on_attrs (getattr "sio");
  match sio with
  | PObject "socketio.Client" =>
      fun w => match sio_emit (snd w) a with
               | Return _ => (Return tt, (fst w, snd w ++ [a]))
               | Raise e => (Raise e, w)
               end
  | _ => lift (Raise (Exc "AttributeError"
                        ("'" +:+ type_name sio +:+ "' object has no attribute 'emit'")))
  end.

(** The [turn] handler. *)
Definition on_turn (data : gmap string pyval)
  : PyM (gmap string pyval * list action) unit :=
  my_seat ← on_attrs (getattr "my_seat");
  if py_eq (dict_get data "activePlayerSeat" PNone) my_seat then
    cb ← on_attrs (getattr "_on_turn_callback");
    if truthy cb then
      cb ← on_attrs (getattr "_on_turn_callback");
      my_cards ← on_attrs (getattr "my_cards");
      community_cards ← on_attrs (getattr "community_cards");
      a ← call_turn cb
            [("my_cards", my_cards);
             ("community_cards", community_cards);
             ("pot", dict_get data "pot" (PInt 0));
             ("current_bet", dict_get data "currentBet" (PInt 0));
             ("your_bet", dict_get data "yourBet" (PInt 0));
             ("your_chips", dict_get data "yourChips" (PInt 0));
             ("can_check", dict_get data "canCheck" (PBool false))];
      _send_action a
    else mret tt
  else mret tt.
End Turn.

(** The keyword arguments the turn callback gets. *)
Definition turn_arguments (my_cards community_cards : pyval)
    (data : gmap string pyval) : list (string * pyval) :=
  [("my_cards", my_cards);
   ("community_cards", community_cards);
   ("pot", dict_get data "pot" (PInt 0));
   ("current_bet", dict_get data "currentBet" (PInt 0));
   ("your_bet", dict_get data "yourBet" (PInt 0));
   ("your_chips", dict_get data "yourChips" (PInt 0));
   ("can_check", dict_get data "canCheck" (PBool false))].

End QuickStart.

(** ** JSON payloads with objects *)

Module Json.

(** A decoded JSON value; numbers are integers (chip counts, seats). *)
#[local] Set Warnings "-register-all".
Inductive json : Type :=
  | JNull
  | JBool (b : bool)
  | JInt (n : Z)
  | JStr (s : string)
  | JList (l : list json)
  | JObj (d : gmap string json).
#[local] Set Warnings "register-all".

(** Truth value testing ([if x:], [not x]). *)
Definition truthy (j : json) : bool :=
  match j with
  | JNull => false
  | JBool b => b
  | JInt n => negb (n =? 0)
  | JStr s => negb (String.eqb s "")
  | JList l => match l with [] => false | _ => true end
  | JObj d => negb (Nat.eqb (size d) 0)
  end.

(** [d.get(key, dflt)] *)
Definition get (d : gmap string json) (key : string) (dflt : json) : json :=
  default dflt (d !! key).

(** [x == s] for [s : Optional[str]]: only an equal string equals a string,
    and only [None] equals [None]. *)
Definition eq_opt_str (x : json) (s : option string) : bool :=
  match x, s with
  | JStr a, Some b => String.eqb a b
  | JNull, None => true
  | _, _ => false
  end.

(** ** Reading a value at the type the client's records give it

    [Card] and [HandState] are typed records here ([str] and [int] fields);
    Python would store whatever value the payload holds.  A value of another
    type falls outside the typed model: these reads give [None] for it, and
    so does every function built on them. *)
Definition as_int (j : json) : option Z :=
  match j with JInt n => Some n | _ => None end.

Definition as_str (j : json) : option string :=
  match j with JStr s => Some s | _ => None end.

Definition as_list (j : json) : option (list json) :=
  match j with JList l => Some l | _ => None end.

Definition as_obj (j : json) : option (gmap string json) :=
  match j with JObj d => Some d | _ => None end.

End Json.

(** ** examples/python/lais_vegas.py: parsing a game state *)

Module Parse.
Import Json Sdk.

(** The card [parse_cards] builds for a hidden one. *)
Definition hidden : Card := mkCard "?" "?".

(** One iteration of the loop of [parse_cards]: the cards it appends. *)
Definition parse_card (c : json) : option (list Card) :=
  match c with
  | JObj d =>
      match d !! "suit", d !! "rank" with
      | Some s, Some r =>
          suit ← as_str s; rank ← as_str r; Some [mkCard suit rank]
      | _, _ => Some []
      end
  | JStr s => if String.eqb s "hidden" then Some [hidden] else Some []
  | _ => Some []
  end.

Fixpoint parse_cards (cards : list json) : option (list Card) :=
  match cards with
  | [] => Some []
  | c :: rest =>
      parsed ← parse_card c; others ← parse_cards rest; Some (parsed ++ others)
  end.

(** Where a parsed card comes from. *)
Definition card_source (l : list json) (c : Card) : Prop :=
  (c = hidden /\ In (JStr "hidden") l)
  \/ exists d, In (JObj d) l
               /\ d !! "suit" = Some (JStr (suit c))
               /\ d !! "rank" = Some (JStr (rank c)).

(** The card an entry stands for: the hidden card for ["hidden"], the card
    of an object that has a suit and a rank, and none for any other entry. *)
Definition entry_card (c : json) : option Card :=
  match c with
  | JObj d =>
      match d !! "suit", d !! "rank" with
      | Some (JStr s), Some (JStr r) => Some (mkCard s r)
      | _, _ => None
      end
  | JStr s => if String.eqb s "hidden" then Some hidden else None
  | _ => None
  end.

(** [hand.get("players", [])], a list of objects. *)
Definition players_of (hand : gmap string json) : option (list (gmap string json)) :=
  l ← as_list (get hand "players" (JList [])); mapM as_obj l.

(** The loop of [parse_hand_state]: the first player whose [agent_id]
    equals the caller's. *)
Fixpoint find_player (players : list (gmap string json)) (agent_id : option string)
  : option (gmap string json) :=
  match players with
  | [] => None
  | p :: rest =>
      if eq_opt_str (get p "agent_id" JNull) agent_id then Some p
      else find_player rest agent_id
  end.

(** [data.get("current_hand", {})], an object. *)
Definition hand_of (data : gmap string json) : option (gmap string json) :=
  as_obj (get data "current_hand" (JObj ∅)).

(** The caller's record after the loop, as the conditionals
    [... if your_player else ...] see it: an empty object is falsy. *)
Definition seated (players : list (gmap string json)) (agent_id : option string)
  : option (gmap string json) :=
  match find_player players agent_id with
  | Some p => if truthy (JObj p) then Some p else None
  | None => None
  end.

(** [your_player.get(key, 0) if your_player else 0], an integer. *)
Definition own_int (your_player : option (gmap string json)) (key : string)
  : option Z :=
  match your_player with
  | Some p => as_int (get p key (JInt 0))
  | None => Some 0
  end.

(** [parse_cards(your_player.get("cards", []) if your_player else [])] *)
Definition own_cards (your_player : option (gmap string json)) : option (list Card) :=
  l ← match your_player with
      | Some p => as_list (get p "cards" (JList []))
      | None => Some []
      end;
  parse_cards l.

(** The players [active_players] counts: those not marked folded. *)
Definition standing (players : list (gmap string json)) : list (gmap string json) :=
  filter (fun p => negb (truthy (get p "is_folded" JNull))) players.

Section HandState.
(** How a player's object is kept in [HandState.players], whose entries the
    client never reads. *)
Variable as_record : gmap string json -> gmap string pyval.

Definition parse_hand_state (data : gmap string json) (agent_id : option string)
  : option HandState :=
  hand ← hand_of data;
  players ← players_of hand;
  let your_player := seated players agent_id in
  community ← (l ← as_list (get hand "community_cards" (JList [])); parse_cards l);
  your_cards ← own_cards your_player;
  phase ← as_str (get hand "phase" (JStr "waiting"));
  pot ← as_int (get hand "pot" (JInt 0));
  your_bet ← own_int your_player "bet";
  current_bet ← as_int (get hand "current_bet" (JInt 0));
  your_chips ← own_int your_player "chips";
  Some (mkHandState phase pot community your_cards your_bet current_bet your_chips
          (eq_opt_str (get data "current_player" JNull) agent_id)
          (Z.of_nat (length (standing players)))
          (map as_record players)).
End HandState.

End Parse.

(** ** examples/python/lais_vegas.py: the REST client *)

Module Rest.
Import Json Sdk.

(** A call of [requests.get], [requests.post] or [requests.patch]; [body] is
    the [json=] argument, absent for a GET. *)
Record request : Type := mkRequest {
  method : string;
  url : string;
  headers : gmap string string;
  body : option (gmap string json)
}.

(** What [_request] reads of the answer: the decoded object of a response
    that is [ok]; the status code and the ["error"] text (when the object
    has one) of a response that is not; or the exception the call or the
    decoding raised ([ConnectionError], [JSONDecodeError]).  The body is
    taken to decode to an object and its ["error"] to be a string, as the
    annotations of [_request] have it. *)
Inductive response : Type :=
  | RespOk (result : gmap string json)
  | RespFail (status_code : Z) (error : option string)
  | RespRaises (e : exn).

(** What the client does that the outside sees, in order. *)
Inductive event : Type :=
  | Out (e : effect)
  | Sent (r : request).

Definition requests_of (trace : list event) : list request :=
  flat_map (fun ev => match ev with Sent r => [r] | Out _ => [] end) trace.

(** The state a method runs in: the client object and the trace so far. *)
Definition world : Type := LAISVegas * list event.

Definition get_self : PyM world LAISVegas := fun w => (Return (fst w), w).

Definition set_current_table (t : option string) : PyM world unit :=
  fun w =>
    let self := fst w in
    (Return tt,
     (mkLAISVegas (api_key self) (base_url self) (debug self) t (agent_id self)
        (_event_handlers self),
      snd w)).

Definition raise {S A} (e : exn) : PyM S A := fun s => (Raise e, s).

(** Code that only prints, run inside a method. *)
Definition lift_out {A} (m : PyM (list effect) A) : PyM world A :=
  fun w => let (r, out) := m [] in (r, (fst w, snd w ++ map Out out)).

(** [x or y] and [not x] on optional strings: [None] and [""] are falsy. *)
Definition str_truthy (x : option string) : bool :=
  match x with
  | Some s => negb (String.eqb s "")
  | None => false
  end.

Definition py_or (x y : option string) : option string :=
  if str_truthy x then x else y.

Definition _headers (self : LAISVegas) : gmap string string :=
  let headers : gmap string string := {["Content-Type" := "application/json"]} in
  if str_truthy (api_key self)
  then <["Authorization" := "Bearer " +:+ default "" (api_key self)]> headers
  else headers.

Section Transport.
(** The server and the network: the answer to a request, given the requests
    made before it. *)
Variable http : list request -> request -> response.

Definition send (r : request) : PyM world response :=
  fun w => (Return (http (requests_of (snd w)) r), (fst w, snd w ++ [Sent r])).

Definition _request (method endpoint : string) (data : option (gmap string json))
    (extra_headers : option (gmap string string)) : PyM world (gmap string json) :=
  self ← get_self;
  let url := base_url self +:+ endpoint in
  let headers :=
    match extra_headers with
    | Some extra => if Nat.eqb (size extra) 0 then _headers self
                    else extra ∪ _headers self
    | None => _headers self
    end in
  _ ← lift_out (_log self (method +:+ " " +:+ endpoint));
  resp ← (if String.eqb method "GET" then send (mkRequest "GET" url headers None)
          else if String.eqb method "POST" then send (mkRequest "POST" url headers data)
          else if String.eqb method "PATCH" then send (mkRequest "PATCH" url headers data)
          else raise (Exc "ValueError" ("Unknown method: " +:+ method)));
  match resp with
  | RespRaises e => raise e
  | RespOk result => mret result
  | RespFail status_code error =>
      let error_msg := default "Unknown error" error in
      if status_code =? 401 then raise (Exc "AuthenticationError" error_msg)
      else if (status_code =? 400) || (status_code =? 403)
      then raise (Exc "GameError" error_msg)
      else raise (Exc "LAISVegasError" error_msg)
  end.

(** [table_id = table_id or self.current_table], then the check that
    raises when there is none. *)
Definition require_table (table_id : option string) : PyM world string :=
  self ← get_self;
  let table_id := py_or table_id (current_table self) in
  if str_truthy table_id then mret (default "" table_id)
  else raise (Exc "GameError" "No table specified").

Definition join_table (table_id : string) (buy_in : Z) (seat : option Z)
  : PyM world (gmap string json) :=
  let data : gmap string json := {["buy_in" := JInt buy_in]} in
  let data := match seat with
              | Some n => <["seat" := JInt n]> data
              | None => data
              end in
  result ← _request "POST" ("/api/tables/" +:+ table_id +:+ "/join") (Some data) None;
  _ ← set_current_table (Some table_id);
  mret result.

Definition leave_table (table_id : option string) : PyM world (gmap string json) :=
  table_id ← require_table table_id;
  result ← _request "POST" ("/api/tables/" +:+ table_id +:+ "/leave") None None;
  self ← get_self;
  _ ← (match current_table self with
       | Some current =>
           if String.eqb table_id current then set_current_table None else mret tt
       | None => mret tt
       end);
  mret result.

Definition action (action : string) (amount : option Z) (table_id : option string)
    (reasoning : option string) : PyM world (gmap string json) :=
  table_id ← require_table table_id;
  let data : gmap string json := {["action" := JStr action]} in
  let data := match amount with
              | Some n => <["amount" := JInt n]> data
              | None => data
              end in
  let data := if str_truthy reasoning
              then <["reasoning" := JStr (default "" reasoning)]> data
              else data in
  _request "POST" ("/api/tables/" +:+ table_id +:+ "/action") (Some data) None.

Definition fold (table_id reasoning : option string) : PyM world (gmap string json) :=
  action "fold" None table_id reasoning.


Definition call (table_id reasoning : option string) : PyM world (gmap string json) :=
  action "call" None table_id reasoning.



Definition get_chat (table_id : option string) (limit : Z) : PyM world json :=
  table_id ← require_table table_id;
  result ← _request "GET"
             ("/api/tables/" +:+ table_id +:+ "/chat?limit=" +:+ str_int limit)
             None None;
  mret (get result "messages" (JList [])).

Definition send_chat (content : string) (table_id : option string) : PyM world json :=
  table_id ← require_table table_id;
  result ← _request "POST" ("/api/tables/" +:+ table_id +:+ "/chat")
             (Some {["content" := JStr content]}) None;
  mret (get result "message" (JObj ∅)).

End Transport.

(** *** Notions the statements about the client use *)

(** What [_log] adds to the trace of a method. *)
Definition logged (self : LAISVegas) (msg : string) : list event :=
  if debug self then [Out (Printed ("[LAIS] " +:+ msg))] else [].

(** The exception [_request] raises for a response that is not [ok]. *)
Definition http_error (status_code : Z) (error : option string) : exn :=
  Exc (if status_code =? 401 then "AuthenticationError"
       else if (status_code =? 400) || (status_code =? 403) then "GameError"
       else "LAISVegasError")
      (default "Unknown error" error).

Definition known_method (m : string) : Prop := m = "GET" \/ m = "POST" \/ m = "PATCH".

(** The request [_request] makes, without extra headers. *)
Definition request_of (self : LAISVegas) (m endpoint : string)
    (data : option (gmap string json)) : request :=
  mkRequest m (base_url self +:+ endpoint) (_headers self)
    (if String.eqb m "GET" then None else data).


(** The client with another current table. *)
Definition with_table (self : LAISVegas) (t : option string) : LAISVegas :=
  mkLAISVegas (api_key self) (base_url self) (debug self) t (agent_id self)
    (_event_handlers self).

End Rest.

(** ** examples/python/simple_bot.py: the bot's event handlers

    What the bot prints to the terminal is not tracked; what it sends, what
    it raises and what it counts is. *)

Module SimpleBot.
Import Json Sdk Bot Rest.

Record SimpleBot : Type := mkSimpleBot {
  client : LAISVegas;
  table_id : string;
  buy_in : Z;
  running : bool;
  hands_played : Z;
  hands_won : Z
}.



Section Handlers.
Variable http : list request -> request -> response.
Variable as_record : gmap string json -> gmap string pyval.


End Handlers.

(** The name Python gives the type of a value, in error messages. *)
Definition type_name (j : json) : string :=
  match j with
  | JNull => "NoneType"
  | JBool _ => "bool"
  | JInt _ => "int"
  | JStr _ => "str"
  | JList _ => "list"
  | JObj _ => "dict"
  end.

Definition no_get (j : json) : exn :=
  Exc "AttributeError" ("'" +:+ type_name j +:+ "' object has no attribute 'get'").

Definition not_iterable (j : json) : exn :=
  Exc "TypeError" ("'" +:+ type_name j +:+ "' object is not iterable").

(** [any(w.get("agent_id") == agent_id for w in items)], on the items of a
    list: it stops at the first match, and an item that is no object, if
    reached, raises. *)
Fixpoint any_winner (items : list json) (agent_id : option string) : outcome bool :=
  match items with
  | [] => Return false
  | JObj w :: rest =>
      if eq_opt_str (get w "agent_id" JNull) agent_id then Return true
      else any_winner rest agent_id
  | other :: _ => Raise (no_get other)
  end.

(** The same over whatever [data.get("winners", [])] is: a string or an
    object iterates over its characters or keys, which are strings. *)
Definition my_win (winners : json) (agent_id : option string) : outcome bool :=
  match winners with
  | JList items => any_winner items agent_id
  | JStr s => if String.eqb s "" then Return false else Raise (no_get (JStr s))
  | JObj d => if Nat.eqb (size d) 0 then Return false else Raise (no_get (JStr ""))
  | other => Raise (not_iterable other)
  end.

(** [', '.join(names)]: the first name that is no string raises. *)
Fixpoint check_names (i : Z) (names : list json) : outcome unit :=
  match names with
  | [] => Return tt
  | JStr _ :: rest => check_names (i + 1) rest
  | other :: _ =>
      Raise (Exc "TypeError"
               ("sequence item " +:+ str_int i +:+ ": expected str instance, "
                +:+ type_name other +:+ " found"))
  end.

(** The names the losing branch joins; it runs only after [my_win] went
    through every item without raising, so the items are objects. *)
Definition winner_names (winners : json) : list json :=
  match winners with
  | JList items =>
      flat_map (fun w => match w with
                         | JObj d => [get d "name" (JStr "?")]
                         | _ => []
                         end) items
  | _ => []
  end.

Definition set_counters (played won : Z) : PyM SimpleBot unit :=
  fun bot =>
    (Return tt,
     mkSimpleBot (client bot) (table_id bot) (buy_in bot) (running bot) played won).

Definition on_hand_result (data : gmap string json) : PyM SimpleBot unit :=
  bot ← (fun bot => (Return bot, bot));
  _ ← set_counters (hands_played bot + 1) (hands_won bot);
  let winners := get data "winners" (JList []) in
  won ← lift (my_win winners (agent_id (client bot)));
  if won : bool then set_counters (hands_played bot + 1) (hands_won bot + 1)
  else lift (check_names 0 (winner_names winners)).

(** A run of hand results, each handled on the bot the previous one left,
    whether it returned or raised. *)
Fixpoint after_results (results : list (gmap string json)) (bot : SimpleBot)
  : SimpleBot :=
  match results with
  | [] => bot
  | data :: rest => after_results rest (snd (on_hand_result data bot))
  end.

End SimpleBot.

(** ** The evaluator as the specification words it *)

Module Spec.

Inductive Rank : Type :=
  | R2 | R3 | R4 | R5 | R6 | R7 | R8 | R9 | R10 | RJ | RQ | RK | RA.

Inductive Suit : Type := Hearts | Diamonds | Clubs | Spades.

Inductive Card : Type :=
  | Known (r : Rank) (s : Suit)
  | Unknown.

Inductive Tier : Type := Premium | Good | Playable | Weak.

Definition rank_num (r : Rank) : Z :=
  match r with
  | R2 => 2 | R3 => 3 | R4 => 4 | R5 => 5 | R6 => 6 | R7 => 7 | R8 => 8
  | R9 => 9 | R10 => 10 | RJ => 11 | RQ => 12 | RK => 13 | RA => 14
  end.

Definition suit_eqb (a b : Suit) : bool :=
  match a, b with
  | Hearts, Hearts | Diamonds, Diamonds | Clubs, Clubs | Spades, Spades => true
  | _, _ => false
  end.

(** The evaluator's policy in the words of the specification (section 4.2),
    the four rules tested in the listed order. *)
Definition evaluate (c1 c2 : Card) : Tier :=
  match c1, c2 with
  | Known r1 s1, Known r2 s2 =>
      let pair := rank_num r1 =? rank_num r2 in
      let suited := suit_eqb s1 s2 in
      let high := Z.max (rank_num r1) (rank_num r2) in
      let low := Z.min (rank_num r1) (rank_num r2) in
      (* a pair ranked Queen or higher, OR Ace+King of the same suit *)
      if (pair && (12 <=? high)) || ((high =? 14) && (low =? 13) && suited)
      then Premium
      (* a pair ranked Ten or higher (but below Queen), OR Ace with Queen/King *)
      else if (pair && (10 <=? high) && (high <? 12))
              || ((high =? 14) && ((low =? 12) || (low =? 13)))
      then Good
      (* a pair ranked 7 or higher, OR same-suit cards with rank gap <= 2 and
         the higher card >= 8, OR an Ace with any same-suit kicker *)
      else if (pair && (7 <=? high))
              || (suited && (high - low <=? 2) && (8 <=? high))
              || (suited && (high =? 14))
      then Playable
      else Weak
  | _, _ => Weak
  end.

(** King and Queen of one suit, in either order. *)
Definition king_queen_suited (c1 c2 : Card) : bool :=
  match c1, c2 with
  | Known RK s1, Known RQ s2 | Known RQ s1, Known RK s2 => suit_eqb s1 s2
  | _, _ => false
  end.

Definition tier_name (t : Tier) : string :=
  match t with
  | Premium => "premium"
  | Good => "good"
  | Playable => "playable"
  | Weak => "weak"
  end.

Definition rank_str (r : Rank) : string :=
  match r with
  | R2 => "2" | R3 => "3" | R4 => "4" | R5 => "5" | R6 => "6" | R7 => "7"
  | R8 => "8" | R9 => "9" | R10 => "10" | RJ => "J" | RQ => "Q" | RK => "K"
  | RA => "A"
  end.

Definition suit_str (s : Suit) : string :=
  match s with
  | Hearts => "hearts"
  | Diamonds => "diamonds"
  | Clubs => "clubs"
  | Spades => "spades"
  end.

(** The client's record of a card; a hidden card is what [parse_cards]
    builds for it, [Card("?", "?")]. *)
Definition to_sdk (c : Card) : Sdk.Card :=
  match c with
  | Known r s => Sdk.mkCard (suit_str s) (rank_str r)
  | Unknown => Sdk.mkCard "?" "?"
  end.

End Spec.

(** ** Concrete states and payloads used below *)

Import Sdk Bot.

(** The payload of a [hand:start] event dealing the ace of spades and the
    king of diamonds. *)
Definition hand_start_payload : gmap string pyval :=
  {["yourCards" := PList [PStr "As"; PStr "Kd"]]}.

(** A client with three handlers on [hand_result]; the second one raises. *)
Definition three_handlers : LAISVegas :=
  on (on (on (mkLAISVegas None "https://lais-vegas.com" true None None ∅)
            "hand_result" (mkHandler "first" (fun _ => Return tt)))
        "hand_result"
        (mkHandler "second" (fun _ => Raise (Exc "KeyError" "'winners'"))))
     "hand_result" (mkHandler "third" (fun _ => Return tt)).

(** Example scenario 1: ace and king of spades, pot 100, 900 chips. *)
Definition scenario1 : HandState :=
  mkHandState "preflop" 100 [] [mkCard "spades" "A"; mkCard "spades" "K"]
    0 0 900 true 2 [].

(** Pocket queens in the big blind, facing a raise. *)
Definition pocket_queens : HandState :=
  mkHandState "preflop" 70 [] [mkCard "hearts" "Q"; mkCard "clubs" "Q"]
    20 50 480 true 3 [].

(** Both hole cards hidden, as [parse_cards] builds them, on the flop. *)
Definition hidden_hand : HandState :=
  mkHandState "flop" 120 [mkCard "hearts" "2"; mkCard "clubs" "9"; mkCard "spades" "J"]
    [mkCard "?" "?"; mkCard "?" "?"] 0 40 960 false 4 [].

(** The ace of spades first and a hidden card second, preflop, 50 to call. *)
Definition hidden_second : HandState :=
  mkHandState "preflop" 75 [] [mkCard "spades" "A"; mkCard "?" "?"]
    0 50 1000 true 2 [].

(** Suited connectors in the big blind: 100 posted, 40 chips behind, the
    bet is matched. *)
Definition short_stack : HandState :=
  mkHandState "preflop" 250 [] [mkCard "spades" "9"; mkCard "spades" "8"]
    100 100 40 true 3 [].

(** ** Notions the statements below use *)

(** The action of a decision. *)
Definition action_of (d : decision) : string := fst (fst d).
Definition amount_of (d : decision) : option Z := snd (fst d).

(** The characters of a hex digest. *)
Definition is_lower_hex (c : ascii) : bool :=
  existsb (Ascii.eqb c) (list_ascii_of_string "0123456789abcdef").

(** A prefix no digest can start with. *)
Definition impossible_prefix (target_prefix : string) : Prop :=
  (64 < String.length target_prefix)%nat
  \/ exists c, In c (list_ascii_of_string target_prefix) /\ is_lower_hex c = false.

(** What one handler adds to the output of a dispatch: its call, then, when
    it raised and [debug] is set, the line [_log] prints. *)
Definition handler_trace (self : LAISVegas) (data : gmap string pyval) (h : handler)
  : list effect :=
  Called (hname h) data ::
  match hcall h data with
  | Raise e =>
      if debug self then [Printed ("[LAIS] Handler error: " +:+ exn_str e)] else []
  | Return _ => []
  end.

(** The lines an output trace shows as printed, in order. *)
Definition printed (out : list effect) : list string :=
  flat_map (fun e => match e with Printed line => [line] | Called _ _ => [] end) out.

(** A client whose only [error] handlers are one that exits and one that
    reports. *)
Definition exit_then_report : LAISVegas :=
  on (on (mkLAISVegas None "https://lais-vegas.com" true None None ∅)
        "error" (mkHandler "quit" (fun _ => Raise (BaseExc "SystemExit" "1"))))
     "error" (mkHandler "report" (fun _ => Return tt)).

(** ** Concrete payloads, clients and servers used below *)

Module Samples.
Import Json Parse Rest SimpleBot.

(** A card as the server sends it. *)
Definition card_json (s r : string) : json :=
  JObj (<["suit" := JStr s]> {["rank" := JStr r]}).

(** The caller's seat: ace of spades and king of hearts, 10 in, 990 behind. *)
Definition hero : gmap string json :=
  <["agent_id" := JStr "a1"]>
  (<["cards" := JList [card_json "spades" "A"; card_json "hearts" "K"]]>
  (<["bet" := JInt 10]> {["chips" := JInt 990]})).

(** Another seat, folded, its cards hidden. *)
Definition villain : gmap string json :=
  <["agent_id" := JStr "a2"]>
  (<["cards" := JList [JStr "hidden"; JStr "hidden"]]>
  (<["bet" := JInt 20]>
  (<["is_folded" := JBool true]> {["chips" := JInt 500]}))).

Definition hand_json : gmap string json :=
  <["phase" := JStr "preflop"]>
  (<["pot" := JInt 30]>
  (<["current_bet" := JInt 20]> {["players" := JList [JObj villain; JObj hero]]})).

(** A game state with [a1] to act. *)
Definition state_payload : gmap string json :=
  <["current_player" := JStr "a1"]> {["current_hand" := JObj hand_json]}.

(** Player records kept as empty ones. *)
Definition no_record (p : gmap string json) : gmap string pyval := ∅.

(** What [state_payload] parses to for [a1], and for an agent not seated. *)
Definition hero_state : HandState :=
  mkHandState "preflop" 30 [] [mkCard "spades" "A"; mkCard "hearts" "K"]
    10 20 990 true 1 [∅; ∅].

Definition watcher_state : HandState :=
  mkHandState "preflop" 30 [] [] 0 20 0 false 1 [∅; ∅].

(** A server that accepts every request, and one that refuses every one. *)
Definition accepting (before : list request) (r : request) : response := RespOk ∅.

Definition refusing (before : list request) (r : request) : response :=
  RespFail 400 (Some "Not your turn").

Definition seated_client : LAISVegas :=
  mkLAISVegas (Some "casino_key") "https://lais-vegas.com" false (Some "bronze-1")
    (Some "a1") ∅.

Definition lobby_client : LAISVegas :=
  mkLAISVegas (Some "casino_key") "https://lais-vegas.com" false None (Some "a1") ∅.

Definition seated_bot : SimpleBot := mkSimpleBot seated_client "bronze-1" 1000 true 3 1.


(** A hand result won by the agent [id]. *)
Definition won_by (id : string) : gmap string json :=
  {["winners" := JList [JObj (<["agent_id" := JStr id]> {["name" := JStr "bot"]})]]}.

(** The quick-start client once [my_turn] is registered and seat 2 taken. *)
Definition ready_client : gmap string pyval :=
  snd (QuickStart.on_joined (<["seat" := PInt 2]> {["chips" := PInt 1000]})
         (snd (QuickStart.register_on_turn "my_turn"
                 (PublicSdk.init "casino_key" "https://lais-vegas.com")))).

(** A [turn] event for a seat. *)
Definition turn_payload (seat : Z) : gmap string pyval :=
  <["activePlayerSeat" := PInt seat]> (<["pot" := PInt 30]> {["currentBet" := PInt 20]}).

End Samples.

(** * Verified properties *)

#[local] Arguments Sha256.hexdigest : simpl never.
#[local] Arguments evaluate_preflop : simpl never.
#[local] Arguments Card_str : simpl never.
#[local] Arguments join : simpl never.
#[local] Arguments str_int : simpl never.
#[local] Arguments int_mul_float : simpl never.
#[local] Arguments int_le_float : simpl never.
#[local] Arguments rank_value : simpl never.

(** ** [HandState.call_amount] *)

(** C6. For every [HandState], [call_amount] is [max(0, current_bet -
    your_bet)]: the difference when [current_bet >= your_bet], and [0] when
    [current_bet < your_bet].  It is a function of the two fields, computed
    on each read. *)
Theorem call_amount_clamped_difference (s : HandState) :
  call_amount s = Z.max 0 (current_bet s - your_bet s)
  /\ (your_bet s <= current_bet s -> call_amount s = current_bet s - your_bet s)
  /\ (current_bet s < your_bet s -> call_amount s = 0)
  /\ (forall s' : HandState,
        current_bet s' = current_bet s -> your_bet s' = your_bet s ->
        call_amount s' = call_amount s).
Proof.
  unfold call_amount. repeat split; intros; lia.
Qed.

(** ** The preflop evaluator *)

Ltac split_ifs_eqn :=
  repeat match goal with
         | |- context [if ?b then _ else _] => destruct b eqn:?
         end.

(** Boolean tests on integers in the context, as propositions. *)
Ltac bool_facts :=
  repeat match goal with
         | H : andb _ _ = true |- _ => apply andb_true_iff in H; destruct H
         | H : andb _ _ = false |- _ => apply andb_false_iff in H; destruct H
         | H : orb _ _ = true |- _ => apply orb_true_iff in H; destruct H
         | H : orb _ _ = false |- _ => apply orb_false_iff in H; destruct H
         | H : (_ <=? _) = true |- _ => apply Z.leb_le in H
         | H : (_ <=? _) = false |- _ => apply Z.leb_gt in H
         | H : (_ =? _) = true |- _ => apply Z.eqb_eq in H
         | H : (_ =? _) = false |- _ => apply Z.eqb_neq in H
         end.

Ltac split_ifs :=
  repeat match goal with
         | |- context [if ?b then _ else _] => destruct b
         end.

Lemma evaluate_preflop_short (cards : list Card) :
  (length cards < 2)%nat -> evaluate_preflop cards = Return "weak".
Proof.
  intros Hlen. unfold evaluate_preflop.
  destruct (Nat.ltb_spec (length cards) 2) as [_ | Hge]; [reflexivity | lia].
Qed.

Lemma evaluate_preflop_two (c1 c2 : Card) (rest : list Card) :
  exists tier, evaluate_preflop (c1 :: c2 :: rest) = Return tier /\ In tier tiers.
Proof.
  unfold evaluate_preflop, index, tiers. cbn [length Nat.ltb Nat.leb lookup list_lookup mbind outcome_bind].
  split_ifs; eexists; (split; [reflexivity | cbn; tauto]).
Qed.

(** C10. [evaluate_preflop] is total over lists of any length: it always
    returns one of the four tiers and never raises (no [IndexError]); on a
    list of fewer than two cards it returns ["weak"]. *)
Theorem evaluate_preflop_total (cards : list Card) :
  (exists tier, evaluate_preflop cards = Return tier /\ In tier tiers)
  /\ ((length cards < 2)%nat -> evaluate_preflop cards = Return "weak").
Proof.
  split; [| apply evaluate_preflop_short].
  destruct cards as [| c1 [| c2 rest]].
  - exists "weak". split; [reflexivity | cbn; tauto].
  - exists "weak". split; [reflexivity | cbn; tauto].
  - apply evaluate_preflop_two.
Qed.

(** ** The quick-start client's handlers *)

Section PublicHandlers.
Import PublicSdk.
Variable user : string -> list pyval -> outcome pyval.
Variables data self : gmap string pyval.

(** The attributes once the two assignments of [hand:start] are done. *)
Let assigned : gmap string pyval :=
  <["community_cards" := PList []]>
    (<["my_cards" := dict_get data "yourCards" (PList [])]> self).

(** Whatever the callback does, the handler leaves the attributes as the
    two assignments made them. *)
Lemma on_hand_start_state :
  snd (on_hand_start user data self) = assigned.
Proof.
  unfold on_hand_start, setattr, getattr, call, lift, mbind, mret, PyM_bind, PyM_ret.
  cbn beta iota. fold assigned.
  destruct (assigned !! "_on_hand_start_callback") as [cb |]; [| reflexivity].
  destruct (truthy cb); [| reflexivity].
  destruct (assigned !! "my_cards") as [cards |]; [| reflexivity].
  destruct cb; try reflexivity.
  destruct (user name [cards]); reflexivity.
Qed.

Lemma on_phase_run :
  on_phase data self
  = (Return tt, <["community_cards" := dict_get data "communityCards" (PList [])]> self).
Proof. reflexivity. Qed.
End PublicHandlers.

(** C4 (amended). For every prior state and payload, processing
    [hand:start] leaves [community_cards] empty and [my_cards] equal to the
    payload's [yourCards] (the empty list when the payload has none), and
    writes no other attribute: the client keeps no phase. *)
Theorem on_hand_start_resets_cards
    (user : string -> list pyval -> outcome pyval) (data self : gmap string pyval) :
  let self' := snd (PublicSdk.on_hand_start user data self) in
  self' !! "community_cards" = Some (PList [])
  /\ self' !! "my_cards" = Some (dict_get data "yourCards" (PList []))
  /\ forall name : string,
       name <> "my_cards" -> name <> "community_cards" -> self' !! name = self !! name.
Proof.
  cbn zeta. rewrite on_hand_start_state. repeat split.
  - apply lookup_insert_eq.
  - rewrite lookup_insert_ne by discriminate. apply lookup_insert_eq.
  - intros name Hcards Hcommunity.
    rewrite !lookup_insert_ne by congruence. reflexivity.
Qed.

(** C4, as stated, fails: on a freshly constructed client the state after
    [hand:start] has no [phase] at all, so it is not [preflop]. *)
Lemma on_hand_start_sets_no_phase :
  snd (PublicSdk.on_hand_start (fun _ _ => Return PNone) hand_start_payload
         (PublicSdk.init "casino_key" "https://lais-vegas.com")) !! "phase"
  <> Some (PStr "preflop").
Proof. vm_compute. discriminate. Qed.

(** C5. Processing the same [phase] event twice in a row gives the state
    processing it once gives: the handler replaces [community_cards] by the
    event's list (the empty list when the payload has none). *)
Theorem on_phase_idempotent (data self : gmap string pyval) :
  PublicSdk.on_phase data (snd (PublicSdk.on_phase data self))
  = PublicSdk.on_phase data self
  /\ snd (PublicSdk.on_phase data self) !! "community_cards"
     = Some (dict_get data "communityCards" (PList [])).
Proof.
  rewrite !on_phase_run. cbn [snd]. split.
  - f_equal. apply insert_insert_eq.
  - apply lookup_insert_eq.
Qed.

(** ** Event dispatch *)

Section Dispatch.
Variable self : LAISVegas.
Variable data : gmap string pyval.

(** One iteration of the loop of [_trigger]. *)
Let guarded (h : handler) : PyM (list effect) unit :=
  try_except_Exception (call_handler h data)
    (fun e => _log self ("Handler error: " +:+ exn_str e)).

Lemma called_app (out1 out2 : list effect) :
  called (out1 ++ out2) = called out1 ++ called out2.
Proof. unfold called. apply flat_map_app. Qed.

Lemma log_returns (msg : string) (out : list effect) :
  exists out', _log self msg out = (Return tt, out') /\ called out' = called out.
Proof.
  unfold _log, print. destruct (debug self).
  - eexists. split; [reflexivity |].
    rewrite called_app. cbn. apply app_nil_r.
  - exists out. split; reflexivity.
Qed.

(** A handler that returns, or raises inside [Exception], is called once
    and the iteration ends normally. *)
Lemma guarded_returns (h : handler) (out : list effect) :
  (forall e, hcall h data = Raise e -> is_Exception e = true) ->
  exists out', guarded h out = (Return tt, out')
               /\ called out' = called out ++ [hname h].
Proof.
  intros Hexc. unfold guarded, try_except_Exception, call_handler.
  destruct (hcall h data) as [[] | e] eqn:Hcall.
  - eexists. split; [reflexivity |]. rewrite called_app. reflexivity.
  - rewrite (Hexc e eq_refl).
    destruct (log_returns ("Handler error: " +:+ exn_str e)
                (out ++ [Called (hname h) data])) as (out' & Hlog & Hcalled).
    exists out'. split; [exact Hlog |].
    rewrite Hcalled, called_app. reflexivity.
Qed.

Lemma for_each_guarded (hs : list handler) :
  (forall h e, In h hs -> hcall h data = Raise e -> is_Exception e = true) ->
  forall out, exists out',
    for_each hs guarded out = (Return tt, out')
    /\ called out' = called out ++ map hname hs.
Proof.
  induction hs as [| h hs IH]; intros Hexc out.
  - exists out. split; [reflexivity |]. cbn. symmetry. apply app_nil_r.
  - destruct (guarded_returns h out) as (out1 & Hrun & Hcalled1).
    { intros e. apply Hexc. left. reflexivity. }
    destruct (IH (fun h' e Hin => Hexc h' e (or_intror Hin)) out1)
      as (out2 & Hrest & Hcalled2).
    exists out2. split.
    + cbn [for_each]. unfold mbind, PyM_bind. rewrite Hrun. exact Hrest.
    + rewrite Hcalled2, Hcalled1, <- app_assoc. reflexivity.
Qed.
End Dispatch.

(** [on] appends: the list of an event is in registration order. *)
Lemma on_appends (self : LAISVegas) (event : string) (h : handler) :
  handlers_for (on self event h) event = handlers_for self event ++ [h].
Proof.
  unfold handlers_for, on. cbn [_event_handlers].
  rewrite lookup_insert_eq. cbn [default].
  destruct (_event_handlers self !! event) as [hs |] eqn:Hhs.
  - rewrite Hhs. reflexivity.
  - rewrite lookup_insert_eq. reflexivity.
Qed.

(** C9 (amended). For every event and every list of registered handlers whose
    failures are exceptions (instances of [Exception], what the dispatch
    catches), [_trigger] returns normally: no exception leaves it, and every
    registered handler is called, once and in registration order, whichever
    of the earlier ones raised. *)
Theorem trigger_isolates_handler_failures
    (self : LAISVegas) (event : string) (data : gmap string pyval)
    (out : list effect) :
  (forall h e, In h (handlers_for self event) ->
               hcall h data = Raise e -> is_Exception e = true) ->
  exists out',
    _trigger self event data out = (Return tt, out')
    /\ called out' = called out ++ map hname (handlers_for self event).
Proof.
  intros Hexc. unfold _trigger. fold (handlers_for self event).
  apply for_each_guarded. exact Hexc.
Qed.

Lemma trigger_isolates_handler_failures_witness :
  exists out',
    _trigger three_handlers "hand_result" ∅ [] = (Return tt, out')
    /\ called out' = [] ++ map hname (handlers_for three_handlers "hand_result").
Proof.
  apply (trigger_isolates_handler_failures three_handlers "hand_result" ∅ []).
  intros h e Hin Hcall.
  vm_compute in Hin.
  destruct Hin as [<- | [<- | [<- | []]]]; cbn in Hcall; try discriminate.
  injection Hcall as <-. reflexivity.
Defined.

(** C9, as stated, fails: not every exception a handler raises is caught.
    An exit request ([SystemExit]) raised by the first of two handlers
    leaves [_trigger], and the handler registered after it is not called. *)
Example trigger_lets_exit_through :
  _trigger
    (on (on (mkLAISVegas None "https://lais-vegas.com" false None None ∅)
           "error" (mkHandler "quit" (fun _ => Raise (BaseExc "SystemExit" "1"))))
        "error" (mkHandler "report" (fun _ => Return tt)))
    "error" ∅ []
  = (Raise (BaseExc "SystemExit" "1"), [Called "quit" ∅]).
Proof. vm_compute. reflexivity. Qed.

(** ** The proof-of-work solver *)

Section Search.
Variable ok : Z -> bool.

(** Below any bound, either some index is the first at which [ok] holds
    or [ok] fails throughout. *)
Lemma first_or_none (j : nat) :
  (exists m, 0 <= m < Z.of_nat j /\ ok m = true
             /\ forall k, 0 <= k < m -> ok k = false)
  \/ (forall k, 0 <= k < Z.of_nat j -> ok k = false).
Proof.
  induction j as [| j [(m & Hm & Hok & Hleast) | Hnone]].
  - right. intros k Hk. lia.
  - left. exists m. repeat split; [lia | lia | exact Hok | exact Hleast].
  - destruct (ok (Z.of_nat j)) eqn:Hj.
    + left. exists (Z.of_nat j). repeat split; [lia | lia | exact Hj | exact Hnone].
    + right. intros k Hk.
      destruct (Z.eq_dec k (Z.of_nat j)) as [-> | Hne]; [exact Hj |].
      apply Hnone. lia.
Qed.

Lemma least_exists (n : Z) :
  0 <= n -> ok n = true ->
  exists m, 0 <= m <= n /\ ok m = true /\ forall k, 0 <= k < m -> ok k = false.
Proof.
  intros Hn Hok.
  destruct (first_or_none (S (Z.to_nat n))) as [(m & Hm & Hokm & Hleast) | Hnone].
  - exists m. repeat split; [lia | lia | exact Hokm | exact Hleast].
  - rewrite Hnone in Hok by lia. discriminate.
Qed.
End Search.

Lemma solve_pow_loop_unfold (fuel : nat) (seed target_prefix : string) (nonce : Z) :
  solve_pow_loop (S fuel) seed target_prefix nonce
  = if pow_ok seed target_prefix nonce then Some (str_int nonce)
    else solve_pow_loop fuel seed target_prefix (nonce + 1).
Proof. reflexivity. Qed.

(** The loop started at [nonce] stops at the first index from there on at
    which the test passes, given fuel for the steps in between. *)
Lemma solve_pow_loop_reaches (seed target_prefix : string) (m : Z) (fuel : nat) :
  pow_ok seed target_prefix m = true ->
  forall nonce,
    nonce <= m ->
    (forall k, nonce <= k < m -> pow_ok seed target_prefix k = false) ->
    (Z.to_nat (m - nonce) < fuel)%nat ->
    solve_pow_loop fuel seed target_prefix nonce = Some (str_int m).
Proof.
  intros Hok. induction fuel as [| fuel IH]; intros nonce Hle Hbelow Hfuel; [lia |].
  rewrite solve_pow_loop_unfold.
  destruct (Z.eq_dec nonce m) as [-> | Hne].
  - rewrite Hok. reflexivity.
  - rewrite Hbelow by lia. apply IH; [lia | intros k Hk; apply Hbelow; lia | lia].
Qed.

Lemma prefix_empty (s : string) : String.prefix "" s = true.
Proof. destruct s; reflexivity. Qed.

(** C8. Whenever some nonce satisfies the challenge, [solve_pow] terminates
    (every fuel above the answer suffices, and gives the same result) and
    returns the decimal string of the smallest non-negative [m] whose digest
    starts with [target_prefix]; for the empty prefix it returns ["0"] for
    every seed, at the first iteration. *)
Theorem solve_pow_returns_least_nonce :
  (forall (seed target_prefix : string) (n : Z),
      0 <= n -> pow_ok seed target_prefix n = true ->
      exists m,
        0 <= m <= n
        /\ pow_ok seed target_prefix m = true
        /\ (forall k, 0 <= k < m -> pow_ok seed target_prefix k = false)
        /\ forall fuel, (Z.to_nat m < fuel)%nat ->
                        solve_pow fuel seed target_prefix = Some (str_int m))
  /\ (forall (seed : string) (fuel : nat), solve_pow (S fuel) seed "" = Some "0").
Proof.
  split.
  - intros seed target_prefix n Hn Hok.
    destruct (least_exists (pow_ok seed target_prefix) n Hn Hok)
      as (m & Hm & Hokm & Hleast).
    exists m. repeat split; [lia | lia | exact Hokm | exact Hleast |].
    intros fuel Hfuel. unfold solve_pow.
    apply solve_pow_loop_reaches; [exact Hokm | lia | | ].
    + intros k Hk. apply Hleast. lia.
    + rewrite Z.sub_0_r. exact Hfuel.
  - intros seed fuel. unfold solve_pow.
    rewrite solve_pow_loop_unfold. unfold pow_ok. rewrite prefix_empty. reflexivity.
Qed.

(** The challenge with seed ["table-893"] and prefix ["00"]: nonce 4 passes
    (the digest starts with [000a]). *)
Lemma solve_pow_returns_least_nonce_witness :
  exists m,
    0 <= m <= 4
    /\ pow_ok "table-893" "00" m = true
    /\ (forall k, 0 <= k < m -> pow_ok "table-893" "00" k = false)
    /\ forall fuel, (Z.to_nat m < fuel)%nat ->
                    solve_pow fuel "table-893" "00" = Some (str_int m).
Proof.
  apply (proj1 solve_pow_returns_least_nonce "table-893" "00" 4).
  - lia.
  - vm_compute. reflexivity.
Defined.

(** On that challenge the solver tries 0, 1, 2, 3 and returns ["4"]. *)
Example solve_pow_table : solve_pow 10 "table-893" "00" = Some "4".
Proof. vm_compute. reflexivity. Qed.

(** ** The decision policy *)

Lemma rank_value_hidden : rank_value "?" = 0.
Proof. vm_compute. reflexivity. Qed.

Lemma evaluate_preflop_cons (c1 c2 : Card) (rest : list Card) :
  evaluate_preflop (c1 :: c2 :: rest) = evaluate_preflop [c1; c2].
Proof. reflexivity. Qed.

(** A premium hand has two cards of rank Queen or higher in front. *)
Lemma evaluate_preflop_premium_inv (cards : list Card) :
  evaluate_preflop cards = Return "premium" ->
  exists c1 c2 rest,
    cards = c1 :: c2 :: rest
    /\ 12 <= rank_value (rank c1) /\ 12 <= rank_value (rank c2).
Proof.
  destruct cards as [| c1 [| c2 rest]]; try discriminate.
  intros Heval. exists c1, c2, rest. split; [reflexivity |].
  revert Heval. unfold evaluate_preflop, index.
  cbn [length Nat.ltb Nat.leb lookup list_lookup mbind outcome_bind].
  destruct (String.eqb_spec (rank c1) (rank c2)) as [-> | _];
    cbn [andb]; split_ifs_eqn; intros Heval; try discriminate Heval;
    bool_facts; lia.
Qed.

Lemma premium_raise (s : HandState) (rnd : float) :
  phase s = "preflop" ->
  evaluate_preflop (your_cards s) = Return "premium" ->
  decide_action s rnd
  = Return ("raise", Some (Z.min (pot s * 3) (your_chips s)),
            "Premium hand (" +:+ join " " (map Card_str (your_cards s))
            +:+ "), raising to build pot").
Proof.
  intros Hphase Heval.
  destruct (evaluate_preflop_premium_inv _ Heval)
    as (c1 & c2 & rest & Hcards & Hc1 & _).
  unfold decide_action. rewrite Hphase.
  rewrite Hcards in Heval |- *. unfold index.
  cbn [lookup list_lookup mbind outcome_bind].
  destruct (String.eqb_spec (rank c1) "?") as [Hhidden | _].
  - rewrite Hhidden, rank_value_hidden in Hc1. lia.
  - rewrite Heval. reflexivity.
Qed.

(** C7. For every preflop [HandState] whose hole cards evaluate to
    ["premium"], [decide_action] returns a raise to exactly
    [min(pot * 3, your_chips)], whatever the random draw; with the ace and
    king of spades, pot 100 and 900 chips it is a raise to 300. *)
Theorem premium_preflop_raises_three_pots :
  (forall (s : HandState) (rnd : float),
      phase s = "preflop" ->
      evaluate_preflop (your_cards s) = Return "premium" ->
      decide_action s rnd
      = Return ("raise", Some (Z.min (pot s * 3) (your_chips s)),
                "Premium hand (" +:+ join " " (map Card_str (your_cards s))
                +:+ "), raising to build pot"))
  /\ (forall rnd : float,
         evaluate_preflop (your_cards scenario1) = Return "premium"
         /\ decide_action scenario1 rnd
            = Return ("raise", Some 300,
                      "Premium hand (A♠ K♠), raising to build pot")).
Proof.
  split; [exact premium_raise |].
  intros rnd. assert (Heval : evaluate_preflop (your_cards scenario1) = Return "premium")
    by (vm_compute; reflexivity).
  split; [exact Heval |].
  rewrite (premium_raise scenario1 rnd eq_refl Heval). vm_compute. reflexivity.
Qed.

Lemma premium_preflop_raises_three_pots_witness :
  decide_action pocket_queens 0x1p-1%float
  = Return ("raise", Some 210, "Premium hand (Q♥ Q♣), raising to build pot").
Proof.
  apply (proj1 premium_preflop_raises_three_pots pocket_queens 0x1p-1%float).
  - reflexivity.
  - vm_compute. reflexivity.
Defined.

(** Example scenario 2: seven-deuce offsuit facing a bet of 50 is folded. *)
Example weak_hand_folds (rnd : float) :
  decide_action
    (mkHandState "preflop" 80 [] [mkCard "clubs" "7"; mkCard "diamonds" "2"]
       0 50 1000 true 2 []) rnd
  = Return ("fold", None, "Weak hand (7♣ 2♦), folding to aggression").
Proof. reflexivity. Qed.

(** C3 (amended). For every [HandState] whose [your_cards] is empty or
    whose first card is hidden (rank ["?"]), [decide_action] returns
    [check] with the rationale "Waiting for cards", regardless of phase, pot,
    bets, chips and the random draw. *)
Theorem decide_action_waits_without_first_card (s : HandState) (rnd : float) :
  your_cards s = [] \/ (exists c rest, your_cards s = c :: rest /\ rank c = "?") ->
  decide_action s rnd = Return ("check", None, "Waiting for cards").
Proof.
  intros [Hnone | (c & rest & Hcards & Hhidden)]; unfold decide_action.
  - rewrite Hnone. reflexivity.
  - rewrite Hcards. unfold index. cbn [lookup list_lookup mbind outcome_bind].
    rewrite Hhidden. reflexivity.
Qed.

Lemma decide_action_waits_without_first_card_witness :
  decide_action hidden_hand 0x1p-3%float = Return ("check", None, "Waiting for cards").
Proof.
  apply (decide_action_waits_without_first_card hidden_hand 0x1p-3%float).
  right. exists (mkCard "?" "?"), [mkCard "?" "?"]. split; reflexivity.
Defined.

(** C3, as stated, fails: with the hidden card in second position the
    policy does not wait, it evaluates the hand as weak and folds. *)
Lemma hidden_second_card_is_played :
  In (mkCard "?" "?") (your_cards hidden_second)
  /\ decide_action hidden_second 0x1p-1%float
     = Return ("fold", None, "Weak hand (A♠ ??), folding to aggression").
Proof. split; [right; left; reflexivity | vm_compute; reflexivity]. Qed.

(** C1 fails on the code: the mixing raise of a playable hand is
    [current_bet + current_bet // 2] with no cap, here 150 with 40 chips. *)
Theorem playable_mixing_raise_exceeds_chips :
  evaluate_preflop (your_cards short_stack) = Return "playable"
  /\ call_amount short_stack = 0
  /\ decide_action short_stack 0x1p-3%float
     = Return ("raise", Some 150, "Playable hand (9♠ 8♠), mixing in a raise")
  /\ your_chips short_stack < 150.
Proof. repeat split; vm_compute; reflexivity. Qed.

(** X1. Every other raise is capped: a raise that [decide_action] returns is
    at most [your_chips], unless it is the preflop mixing raise of a playable
    hand with nothing to call. *)
Lemma raise_capped_outside_mixing (s : HandState) (rnd : float) (a : Z) (why : string) :
  decide_action s rnd = Return ("raise", Some a, why) ->
  a <= your_chips s
  \/ (phase s = "preflop"
      /\ evaluate_preflop (your_cards s) = Return "playable"
      /\ call_amount s = 0
      /\ a = current_bet s + current_bet s / 2).
Proof.
  unfold decide_action.
  destruct (your_cards s) as [| c rest]; [discriminate |].
  unfold index. cbn [lookup list_lookup mbind outcome_bind].
  destruct (String.eqb (rank c) "?"); [discriminate |].
  destruct (evaluate_preflop (c :: rest)) as [hs | e]; [| discriminate].
  cbn [mbind outcome_bind].
  destruct (String.eqb_spec (phase s) "preflop") as [Hphase | _].
  - destruct (String.eqb hs "premium");
      [intros [= <- _]; left; lia |].
    destruct (String.eqb hs "good").
    + destruct (call_amount s =? 0); [intros [= <- _]; left; lia |].
      destruct (int_mul_float (your_chips s) f0_1); [| discriminate].
      cbn [mbind outcome_bind]. split_ifs; discriminate.
    + destruct (String.eqb_spec hs "playable") as [-> | _].
      * destruct (Z.eqb_spec (call_amount s) 0) as [Hcall | _].
        -- destruct (rnd <? f0_3)%float; [| discriminate].
           intros [= <- _]. right. repeat split; assumption.
        -- destruct (int_mul_float (your_chips s) f0_05); [| discriminate].
           cbn [mbind outcome_bind]. split_ifs; discriminate.
      * split_ifs; discriminate.
  - destruct (call_amount s =? 0).
    + destruct (rnd <? f0_3)%float; [| discriminate].
      intros [= <- _]. left. lia.
    + destruct (int_mul_float (pot s) f0_5); [| discriminate].
      cbn [mbind outcome_bind]. split_ifs; discriminate.
Qed.

Lemma raise_capped_outside_mixing_witness :
  300 <= your_chips scenario1
  \/ (phase scenario1 = "preflop"
      /\ evaluate_preflop (your_cards scenario1) = Return "playable"
      /\ call_amount scenario1 = 0
      /\ 300 = current_bet scenario1 + current_bet scenario1 / 2).
Proof.
  apply (raise_capped_outside_mixing scenario1 0x1p-1%float 300
           "Premium hand (A♠ K♠), raising to build pot").
  vm_compute. reflexivity.
Defined.

(** ** The evaluator against the specification's rules *)

(** C2, as stated, fails: King-Queen of one suit matches no rule of the
    specification before [Playable], and the code returns ["good"]. *)
Lemma king_queen_suited_is_good :
  Spec.evaluate (Spec.Known Spec.RK Spec.Spades) (Spec.Known Spec.RQ Spec.Spades)
  = Spec.Playable
  /\ evaluate_preflop
       [Spec.to_sdk (Spec.Known Spec.RK Spec.Spades);
        Spec.to_sdk (Spec.Known Spec.RQ Spec.Spades)]
     = Return "good".
Proof. split; vm_compute; reflexivity. Qed.

(** C2 (amended). For every pair of known cards, [evaluate_preflop] returns
    the tier the specification's four rules give, tested in their order,
    except that King-Queen of one suit is [Good]. *)
Theorem evaluate_preflop_refines_spec (r1 r2 : Spec.Rank) (s1 s2 : Spec.Suit) :
  let c1 := Spec.Known r1 s1 in
  let c2 := Spec.Known r2 s2 in
  evaluate_preflop [Spec.to_sdk c1; Spec.to_sdk c2]
  = Return (Spec.tier_name
              (if Spec.king_queen_suited c1 c2 then Spec.Good
               else Spec.evaluate c1 c2)).
Proof.
  destruct r1, s1, r2, s2; vm_compute; reflexivity.
Qed.

(** * Further properties of the decision policy *)

(** X2. The order of the two hole cards does not matter to
    [evaluate_preflop], and cards after the second are not read. *)
Theorem evaluate_preflop_order (c1 c2 : Card) (rest rest' : list Card) :
  evaluate_preflop (c1 :: c2 :: rest) = evaluate_preflop (c2 :: c1 :: rest').
Proof.
  unfold evaluate_preflop, index.
  cbn [length Nat.ltb Nat.leb lookup list_lookup mbind outcome_bind].
  rewrite (String.eqb_sym (rank c2)), (String.eqb_sym (suit c2)).
  rewrite (Z.max_comm (rank_value (rank c2))), (Z.min_comm (rank_value (rank c2))).
  reflexivity.
Qed.

(** Case analysis of [decide_action] on a dealt hand: what is left after the
    waiting guard. *)
Ltac policy_cases s c rest hs :=
  unfold decide_action;
  destruct (your_cards s) as [| c rest] eqn:?;
  [cbn [mbind outcome_bind]
  | unfold index; cbn [lookup list_lookup mbind outcome_bind];
     destruct (String.eqb_spec (rank c) "?");
     [| destruct (evaluate_preflop (c :: rest)) as [hs | ?] eqn:?;
        cbn [mbind outcome_bind];
        [destruct (String.eqb_spec (phase s) "preflop");
         [destruct (String.eqb_spec hs "premium");
          [| destruct (String.eqb_spec hs "good");
             [| destruct (String.eqb_spec hs "playable")]] |];
         destruct (Z.eqb_spec (call_amount s) 0) |]]].

Ltac policy_leaves :=
  repeat match goal with
         | |- context [int_mul_float ?n ?f] =>
             destruct (int_mul_float n f) eqn:?; cbn [mbind outcome_bind]
         | |- context [if ?b then _ else _] => destruct b eqn:?
         end.

(** X3. With nothing to call, [decide_action] never folds and never calls:
    it checks or raises. *)
Theorem free_action_is_check_or_raise (s : HandState) (rnd : float) (d : decision) :
  call_amount s = 0 ->
  decide_action s rnd = Return d ->
  action_of d = "check" \/ action_of d = "raise".
Proof.
  intros Hfree. policy_cases s c rest hs; try contradiction; policy_leaves;
    intros [= <-]; cbn; auto.
  all: try discriminate.
Qed.

Lemma free_action_is_check_or_raise_witness :
  action_of ("raise", Some 300, "Premium hand (A♠ K♠), raising to build pot") = "check"
  \/ action_of ("raise", Some 300, "Premium hand (A♠ K♠), raising to build pot") = "raise".
Proof.
  apply (free_action_is_check_or_raise scenario1 0x1p-1%float).
  - reflexivity.
  - vm_compute. reflexivity.
Defined.

(** X4. Facing a bet with a visible first card, [decide_action] never
    checks: it folds or calls, or raises with a premium hand preflop. *)
Theorem facing_bet_never_checks
    (s : HandState) (rnd : float) (c : Card) (rest : list Card) (d : decision) :
  your_cards s = c :: rest -> rank c <> "?" ->
  call_amount s <> 0 ->
  decide_action s rnd = Return d ->
  action_of d = "fold" \/ action_of d = "call"
  \/ (action_of d = "raise" /\ phase s = "preflop"
      /\ evaluate_preflop (your_cards s) = Return "premium").
Proof.
  intros Hcards Hrank Hbet. policy_cases s c' rest' hs; try discriminate.
  all: injection Hcards as -> ->; try contradiction; policy_leaves;
    intros [= <-]; cbn; subst; auto.
Qed.

Lemma facing_bet_never_checks_witness :
  action_of ("raise", Some 210, "Premium hand (Q♥ Q♣), raising to build pot") = "fold"
  \/ action_of ("raise", Some 210, "Premium hand (Q♥ Q♣), raising to build pot") = "call"
  \/ (action_of ("raise", Some 210, "Premium hand (Q♥ Q♣), raising to build pot") = "raise"
      /\ phase pocket_queens = "preflop"
      /\ evaluate_preflop (your_cards pocket_queens) = Return "premium").
Proof.
  apply (facing_bet_never_checks pocket_queens 0x1p-1%float
           (mkCard "hearts" "Q") [mkCard "clubs" "Q"]).
  - reflexivity.
  - discriminate.
  - vm_compute. discriminate.
  - vm_compute. reflexivity.
Defined.

(** X5. A premium hand is never folded, in any phase and at any price. *)
Theorem premium_never_folds (s : HandState) (rnd : float) (d : decision) :
  evaluate_preflop (your_cards s) = Return "premium" ->
  decide_action s rnd = Return d ->
  action_of d <> "fold".
Proof.
  intros Heval. policy_cases s c rest hs; try discriminate Heval.
  1, 2: intros [= <-]; cbn; discriminate.
  all: injection Heval as ->; try contradiction; policy_leaves;
    intros [= <-]; cbn; discriminate.
Qed.

Lemma premium_never_folds_witness :
  action_of ("raise", Some 300, "Premium hand (A♠ K♠), raising to build pot") <> "fold".
Proof.
  apply (premium_never_folds scenario1 0x1p-1%float).
  - vm_compute. reflexivity.
  - vm_compute. reflexivity.
Defined.

(** X6. Whatever [decide_action] returns is one of fold, check, call and
    raise, with an amount exactly when it is a raise: it never goes all-in,
    never raises without an amount and never names an amount for another
    action.  (On amounts too large to convert to a float, or to format, the
    code raises instead of returning.) *)
Theorem decide_action_shape (s : HandState) (rnd : float) (d : decision) :
  decide_action s rnd = Return d ->
  (action_of d = "raise" /\ exists n, amount_of d = Some n)
  \/ (In (action_of d) ["fold"; "check"; "call"] /\ amount_of d = None).
Proof.
  policy_cases s c rest hs; try discriminate.
  all: policy_leaves; intros [= <-]; cbn; eauto 6.
Qed.

Lemma decide_action_shape_witness :
  (action_of ("raise", Some 300, "Premium hand (A♠ K♠), raising to build pot") = "raise"
   /\ exists n,
        amount_of ("raise", Some 300, "Premium hand (A♠ K♠), raising to build pot")
        = Some n)
  \/ (In (action_of ("raise", Some 300, "Premium hand (A♠ K♠), raising to build pot"))
        ["fold"; "check"; "call"]
      /\ amount_of ("raise", Some 300, "Premium hand (A♠ K♠), raising to build pot")
         = None).
Proof.
  apply (decide_action_shape scenario1 0x1p-1%float).
  vm_compute. reflexivity.
Defined.

(** * Further properties of the proof-of-work solver *)

Section Digest.
Import Sha256.

Lemma hex_digit_lower (d : Z) : 0 <= d < 16 -> is_lower_hex (hex_digit d) = true.
Proof.
  intros Hd. unfold hex_digit.
  assert (Hn : (Z.to_nat d < 16)%nat) by lia.
  revert Hn. generalize (Z.to_nat d). intros n Hn.
  do 16 (destruct n as [| n]; [reflexivity |]). lia.
Qed.

Lemma be_bytes_range (width : nat) (n : Z) :
  Forall (fun b => 0 <= b < 256) (be_bytes width n).
Proof.
  unfold be_bytes. apply Forall_map. apply Forall_forall. intros i _.
  change 255 with (Z.ones 8). rewrite Z.land_ones by lia.
  apply Z.mod_pos_bound. lia.
Qed.

Lemma hex_byte_lower (b : Z) :
  0 <= b < 256 -> Forall (fun c => is_lower_hex c = true) (hex_byte b).
Proof.
  intros Hb. unfold hex_byte.
  repeat constructor; apply hex_digit_lower.
  - split; [apply Z.div_pos; lia | apply Z.div_lt_upper_bound; lia].
  - apply Z.mod_pos_bound. lia.
Qed.

Lemma compress_length (h block : list Z) :
  length h = 8%nat -> length (compress h block) = 8%nat.
Proof.
  intros Hh. unfold compress. rewrite length_zip_with, Hh. reflexivity.
Qed.

Lemma digest_words_length (msg : list Z) : length (digest_words msg) = 8%nat.
Proof.
  unfold digest_words.
  generalize (blocks (length (words (pad msg)) / 16) (words (pad msg))).
  assert (H0len : length H0 = 8%nat) by reflexivity.
  revert H0len. generalize H0. intros h Hh bs. revert h Hh.
  induction bs as [| b bs IH]; intros h Hh; [exact Hh |].
  cbn [fold_left]. apply IH. apply compress_length. exact Hh.
Qed.

Lemma length_concat_const {A B} (f : A -> list B) (k : nat) (l : list A) :
  (forall x, length (f x) = k) -> length (concat (map f l)) = (k * length l)%nat.
Proof.
  intros Hf. induction l as [| x l IH]; cbn [map concat length]; [lia |].
  rewrite length_app, Hf, IH. lia.
Qed.

Lemma string_length_of_list (l : list ascii) :
  String.length (string_of_list_ascii l) = length l.
Proof. induction l as [| c l IH]; cbn; [reflexivity | rewrite IH; reflexivity]. Qed.

(** A digest is 64 characters long. *)
Lemma hexdigest_length (data : string) : String.length (hexdigest data) = 64%nat.
Proof.
  unfold hexdigest. rewrite string_length_of_list.
  rewrite (length_concat_const hex_byte 2) by reflexivity.
  rewrite (length_concat_const (be_bytes 4) 4).
  - rewrite digest_words_length. reflexivity.
  - intros x. unfold be_bytes. rewrite length_map, length_rev, length_seq. reflexivity.
Qed.

(** A digest is written with the digits and the letters a to f. *)
Lemma hexdigest_lower (data : string) :
  Forall (fun c => is_lower_hex c = true) (list_ascii_of_string (hexdigest data)).
Proof.
  unfold hexdigest. rewrite list_ascii_of_string_of_list_ascii.
  apply Forall_concat, Forall_map, Forall_forall. intros b Hb.
  apply hex_byte_lower.
  revert b Hb. apply Forall_forall.
  apply Forall_concat, Forall_map, Forall_forall. intros w _.
  apply be_bytes_range.
Qed.
End Digest.

Lemma prefix_inv (p s : string) :
  String.prefix p s = true ->
  (String.length p <= String.length s)%nat
  /\ forall c, In c (list_ascii_of_string p) -> In c (list_ascii_of_string s).
Proof.
  revert s. induction p as [| a p IH]; intros s Hp.
  - split; [cbn; lia | intros c []].
  - destruct s as [| b s]; [discriminate |]. cbn in Hp.
    destruct (Ascii.ascii_dec a b) as [-> | Hne]; [| discriminate].
    destruct (IH s Hp) as [Hlen Hin]. split; [cbn; lia |].
    intros c [<- | Hc]; [left; reflexivity | right; apply Hin, Hc].
Qed.

Lemma impossible_prefix_fails (seed target_prefix : string) (n : Z) :
  impossible_prefix target_prefix -> pow_ok seed target_prefix n = false.
Proof.
  intros Himp. unfold pow_ok.
  destruct (String.prefix target_prefix (Sha256.hexdigest (seed +:+ str_int n))) eqn:Hp;
    [| reflexivity].
  destruct (prefix_inv _ _ Hp) as [Hlen Hin].
  destruct Himp as [Hlong | (c & Hc & Hhex)].
  - rewrite hexdigest_length in Hlen. lia.
  - pose proof (hexdigest_lower (seed +:+ str_int n)) as Hall.
    rewrite Forall_forall in Hall.
    rewrite (Hall c (proj2 (list_elem_of_In _ _) (Hin c Hc))) in Hhex. discriminate.
Qed.

(** X7. A target prefix longer than 64 characters, or with a character that
    is not a digit or a letter a to f (an upper-case hex digit, say), is never
    matched: [solve_pow] does not return, whatever the seed and however long
    it runs. *)
Theorem solve_pow_unsatisfiable (seed target_prefix : string) :
  impossible_prefix target_prefix ->
  forall fuel, solve_pow fuel seed target_prefix = None.
Proof.
  intros Himp fuel. unfold solve_pow. generalize 0.
  induction fuel as [| fuel IH]; intros nonce; [reflexivity |].
  rewrite solve_pow_loop_unfold, impossible_prefix_fails by exact Himp.
  apply IH.
Qed.

Lemma solve_pow_unsatisfiable_witness :
  solve_pow 1000 "table-893" "00A" = None.
Proof.
  refine (solve_pow_unsatisfiable "table-893" "00A" _ 1000%nat).
  right. exists "A"%char. split; [right; right; left; reflexivity | reflexivity].
Defined.

Lemma solve_pow_loop_sound (seed target_prefix s : string) (fuel : nat) :
  forall nonce,
    solve_pow_loop fuel seed target_prefix nonce = Some s ->
    exists m,
      nonce <= m /\ (Z.to_nat (m - nonce) < fuel)%nat /\ s = str_int m
      /\ pow_ok seed target_prefix m = true
      /\ forall k, nonce <= k < m -> pow_ok seed target_prefix k = false.
Proof.
  induction fuel as [| fuel IH]; intros nonce Hrun; [discriminate |].
  rewrite solve_pow_loop_unfold in Hrun.
  destruct (pow_ok seed target_prefix nonce) eqn:Hok.
  - injection Hrun as <-. exists nonce.
    repeat split; [lia | lia | exact Hok | intros k Hk; lia].
  - destruct (IH _ Hrun) as (m & Hle & Hfuel & Hs & Hokm & Hleast).
    exists m. repeat split; [lia | lia | exact Hs | exact Hokm |].
    intros k Hk. destruct (Z.eq_dec k nonce) as [-> | Hne]; [exact Hok |].
    apply Hleast. lia.
Qed.

(** X8. Whatever [solve_pow] returns is a valid proof: the decimal string of
    a nonce whose digest starts with the target prefix, with no smaller
    nonce doing so, found within the iterations it ran. *)
Theorem solve_pow_sound (fuel : nat) (seed target_prefix s : string) :
  solve_pow fuel seed target_prefix = Some s ->
  exists m,
    0 <= m /\ (Z.to_nat m < fuel)%nat /\ s = str_int m
    /\ pow_ok seed target_prefix m = true
    /\ forall k, 0 <= k < m -> pow_ok seed target_prefix k = false.
Proof.
  intros Hrun. destruct (solve_pow_loop_sound _ _ _ _ _ Hrun)
    as (m & Hle & Hfuel & Hs & Hok & Hleast).
  exists m. rewrite Z.sub_0_r in Hfuel. repeat split; assumption.
Qed.

Lemma solve_pow_sound_witness :
  exists m,
    0 <= m /\ (Z.to_nat m < 10)%nat /\ "4" = str_int m
    /\ pow_ok "table-893" "00" m = true
    /\ forall k, 0 <= k < m -> pow_ok "table-893" "00" k = false.
Proof.
  apply (solve_pow_sound 10 "table-893" "00" "4").
  vm_compute. reflexivity.
Defined.

(** * Further properties of the event dispatch *)

Section DispatchTrace.
Variable self : LAISVegas.
Variable data : gmap string pyval.

Let guarded (h : handler) : PyM (list effect) unit :=
  try_except_Exception (call_handler h data)
    (fun e => _log self ("Handler error: " +:+ exn_str e)).

Lemma guarded_trace (h : handler) (out : list effect) :
  (forall e, hcall h data = Raise e -> is_Exception e = true) ->
  guarded h out = (Return tt, out ++ handler_trace self data h).
Proof.
  intros Hexc. unfold guarded, try_except_Exception, call_handler, handler_trace.
  destruct (hcall h data) as [[] | e] eqn:Hcall; [reflexivity |].
  rewrite (Hexc e eq_refl). unfold _log, print.
  destruct (debug self); cbn [mret PyM_ret].
  - rewrite <- app_assoc. reflexivity.
  - reflexivity.
Qed.

Lemma guarded_exit (h : handler) (e : exn) (out : list effect) :
  hcall h data = Raise e -> is_Exception e = false ->
  guarded h out = (Raise e, out ++ [Called (hname h) data]).
Proof.
  intros Hcall Hexit. unfold guarded, try_except_Exception, call_handler.
  rewrite Hcall, Hexit. reflexivity.
Qed.

Lemma for_each_trace (hs : list handler) :
  (forall h e, In h hs -> hcall h data = Raise e -> is_Exception e = true) ->
  forall out,
    for_each hs guarded out = (Return tt, out ++ flat_map (handler_trace self data) hs).
Proof.
  induction hs as [| h hs IH]; intros Hexc out.
  - cbn. rewrite app_nil_r. reflexivity.
  - cbn [for_each flat_map]. unfold mbind, PyM_bind.
    rewrite guarded_trace by (intros e; apply Hexc; left; reflexivity).
    rewrite IH by (intros h' e Hin; apply Hexc; right; exact Hin).
    rewrite <- app_assoc. reflexivity.
Qed.

Lemma for_each_exit (before after : list handler) (h : handler) (e : exn) :
  (forall h' e', In h' before -> hcall h' data = Raise e' -> is_Exception e' = true) ->
  hcall h data = Raise e -> is_Exception e = false ->
  forall out,
    for_each (before ++ h :: after) guarded out
    = (Raise e,
       out ++ flat_map (handler_trace self data) before ++ [Called (hname h) data]).
Proof.
  intros Hexc Hcall Hexit.
  induction before as [| b before IH]; intros out.
  - cbn [app for_each flat_map]. unfold mbind, PyM_bind.
    rewrite (guarded_exit h e out Hcall Hexit). reflexivity.
  - cbn [app for_each flat_map]. unfold mbind, PyM_bind.
    rewrite guarded_trace by (intros e'; apply Hexc; left; reflexivity).
    rewrite IH by (intros h' e' Hin; apply Hexc; right; exact Hin).
    rewrite <- !app_assoc. reflexivity.
Qed.
End DispatchTrace.

(** X9. The output of a dispatch whose handlers fail only with instances of
    [Exception] is exactly, for each registered handler in order, its call,
    followed when it raised by one line "[LAIS] Handler error: <message>",
    and that line only under [debug]: with [debug] off a failing callback
    leaves no trace at all. *)
Theorem trigger_trace
    (self : LAISVegas) (event : string) (data : gmap string pyval)
    (out : list effect) :
  (forall h e, In h (handlers_for self event) ->
               hcall h data = Raise e -> is_Exception e = true) ->
  _trigger self event data out
  = (Return tt, out ++ flat_map (handler_trace self data) (handlers_for self event))
  /\ (debug self = false ->
      printed (flat_map (handler_trace self data) (handlers_for self event)) = []).
Proof.
  intros Hexc. split.
  - unfold _trigger. fold (handlers_for self event).
    apply for_each_trace. exact Hexc.
  - intros Hquiet. clear Hexc. unfold printed.
    induction (handlers_for self event) as [| h hs IH]; [reflexivity |].
    cbn [flat_map]. rewrite flat_map_app, IH, app_nil_r.
    unfold handler_trace. rewrite Hquiet.
    destruct (hcall h data); reflexivity.
Qed.

Lemma trigger_trace_witness :
  _trigger three_handlers "hand_result" ∅ []
  = (Return tt,
     [] ++ flat_map (handler_trace three_handlers ∅)
             (handlers_for three_handlers "hand_result"))
  /\ (debug three_handlers = false ->
      printed (flat_map (handler_trace three_handlers ∅)
                 (handlers_for three_handlers "hand_result")) = []).
Proof.
  apply (trigger_trace three_handlers "hand_result" ∅ []).
  intros h e Hin Hcall.
  vm_compute in Hin.
  destruct Hin as [<- | [<- | [<- | []]]]; cbn in Hcall; try discriminate.
  injection Hcall as <-. reflexivity.
Defined.

(** X10. An exception outside [Exception] ([SystemExit],
    [KeyboardInterrupt]) raised by a handler leaves [_trigger]: the handlers
    registered before it have run, the ones after it are not called, and
    nothing is logged for it. *)
Theorem trigger_stops_at_exit
    (self : LAISVegas) (event : string) (data : gmap string pyval)
    (before after : list handler) (h : handler) (e : exn) (out : list effect) :
  handlers_for self event = before ++ h :: after ->
  (forall h' e', In h' before -> hcall h' data = Raise e' -> is_Exception e' = true) ->
  hcall h data = Raise e -> is_Exception e = false ->
  _trigger self event data out
  = (Raise e, out ++ flat_map (handler_trace self data) before ++ [Called (hname h) data]).
Proof.
  intros Hhs Hexc Hcall Hexit. unfold _trigger. fold (handlers_for self event).
  rewrite Hhs. apply for_each_exit; assumption.
Qed.

Lemma trigger_stops_at_exit_witness :
  _trigger exit_then_report "error" ∅ []
  = (Raise (BaseExc "SystemExit" "1"),
     [] ++ flat_map (handler_trace exit_then_report ∅) []
        ++ [Called "quit" ∅]).
Proof.
  apply (trigger_stops_at_exit exit_then_report "error" ∅ []
           [mkHandler "report" (fun _ => Return tt)]
           (mkHandler "quit" (fun _ => Raise (BaseExc "SystemExit" "1")))).
  - vm_compute. reflexivity.
  - intros h' e' [].
  - reflexivity.
  - reflexivity.
Defined.

Lemma on_other_event (self : LAISVegas) (event other : string) (h : handler) :
  event <> other -> handlers_for (on self event h) other = handlers_for self other.
Proof.
  intros Hne. unfold handlers_for, on. cbn [_event_handlers].
  rewrite lookup_insert_ne by exact Hne.
  destruct (_event_handlers self !! event); [reflexivity |].
  rewrite lookup_insert_ne by exact Hne. reflexivity.
Qed.

(** X11. A handler is called only for the event it was registered on:
    registering on one event leaves the dispatch of every other event as it
    was, and an event with no handler is dispatched with no effect. *)
Theorem on_scopes_handler_to_event
    (self : LAISVegas) (event other : string) (h : handler)
    (data : gmap string pyval) (out : list effect) :
  event <> other ->
  _trigger (on self event h) other data out = _trigger self other data out
  /\ (handlers_for self other = [] -> _trigger self other data out = (Return tt, out)).
Proof.
  intros Hne. split.
  - unfold _trigger.
    fold (handlers_for (on self event h) other). fold (handlers_for self other).
    rewrite on_other_event by exact Hne.
    unfold on, _log. cbn [debug]. reflexivity.
  - intros Hnone. unfold _trigger. fold (handlers_for self other).
    rewrite Hnone. reflexivity.
Qed.

Lemma on_scopes_handler_to_event_witness :
  _trigger (on three_handlers "chat_message" (mkHandler "chat" (fun _ => Return tt)))
    "hand_result" ∅ []
  = _trigger three_handlers "hand_result" ∅ []
  /\ (handlers_for three_handlers "hand_result" = [] ->
      _trigger three_handlers "hand_result" ∅ [] = (Return tt, [])).
Proof.
  apply (on_scopes_handler_to_event three_handlers "chat_message" "hand_result").
  discriminate.
Defined.

(** * Properties of the game-state parser *)

Section Parsing.
Import Json Parse.

Lemma parse_cards_app (l1 l2 : list json) :
  parse_cards (l1 ++ l2)
  = cards1 ← parse_cards l1; cards2 ← parse_cards l2; Some (cards1 ++ cards2).
Proof.
  induction l1 as [| c l1 IH]; cbn [app parse_cards].
  - destruct (parse_cards l2); reflexivity.
  - rewrite IH. destruct (parse_card c) as [parsed |]; [| reflexivity].
    destruct (parse_cards l1) as [cards1 |]; [| reflexivity].
    destruct (parse_cards l2) as [cards2 |]; [| reflexivity].
    cbn. rewrite app_assoc. reflexivity.
Qed.

Lemma card_source_cons (x : json) (l : list json) (c : Card) :
  card_source l c -> card_source (x :: l) c.
Proof.
  intros [[Hc Hin] | (d & Hin & Hs & Hr)].
  - left. split; [exact Hc | right; exact Hin].
  - right. exists d. split; [right; exact Hin | split; assumption].
Qed.

Lemma parse_card_source (x : json) (parsed : list Card) :
  parse_card x = Some parsed ->
  (length parsed <= 1)%nat /\ forall c, In c parsed -> card_source [x] c.
Proof.
  unfold parse_card. destruct x as [| b | n | s | l | d].
  1, 2, 3, 5: intros [= <-]; split; [cbn; lia | intros c []].
  - destruct (String.eqb_spec s "hidden") as [-> | _]; intros [= <-].
    + split; [cbn; lia |]. intros c [<- | []]. left. split; [reflexivity | left; reflexivity].
    + split; [cbn; lia | intros c []].
  - destruct (d !! "suit") as [js |] eqn:Hs; [| intros [= <-]; split; [cbn; lia | intros c []]].
    destruct (d !! "rank") as [jr |] eqn:Hr; [| intros [= <-]; split; [cbn; lia | intros c []]].
    destruct js; try discriminate. destruct jr; try discriminate.
    intros [= <-]. split; [cbn; lia |]. intros c [<- | []].
    right. exists d. split; [left; reflexivity | split; assumption].
Qed.

Lemma parse_card_entry (x : json) (parsed : list Card) :
  parse_card x = Some parsed -> parsed = option_list (entry_card x).
Proof.
  unfold parse_card, entry_card. destruct x as [| b | n | s | l | d].
  1, 2, 3, 5: intros [= <-]; reflexivity.
  - destruct (String.eqb s "hidden"); intros [= <-]; reflexivity.
  - destruct (d !! "suit") as [js |]; [| intros [= <-]; reflexivity].
    destruct (d !! "rank") as [jr |]; [| intros [= <-]; destruct js; reflexivity].
    destruct js; try discriminate. destruct jr; try discriminate.
    intros [= <-]. reflexivity.
Qed.

(** X12. [parse_cards] invents nothing and skips nothing it should read:
    the cards it returns are, in the order of the entries, the hidden card
    ["?", "?"] for each ["hidden"] entry and the card of each object that
    has a suit and a rank; every other entry gives no card.  So there is at
    most one card per entry, and each card is the hidden one or carries the
    suit and rank of an object of the input. *)
Theorem parse_cards_provenance (l : list json) (cards : list Card) :
  parse_cards l = Some cards ->
  cards = omap entry_card l
  /\ (length cards <= length l)%nat /\ Forall (card_source l) cards.
Proof.
  revert cards. induction l as [| x l IH]; intros cards.
  - intros [= <-]. split; [reflexivity | split; [reflexivity | constructor]].
  - cbn [parse_cards]. destruct (parse_card x) as [parsed |] eqn:Hx; [| discriminate].
    destruct (parse_cards l) as [others |]; [| discriminate].
    intros [= <-]. destruct (parse_card_source _ _ Hx) as [Hone Hsrc].
    destruct (IH others eq_refl) as (Heq & Hlen & Hall). split; [| split].
    + rewrite (parse_card_entry _ _ Hx), Heq. cbn [omap list_omap].
      destruct (entry_card x); reflexivity.
    + rewrite length_app. cbn [length]. lia.
    + apply Forall_app. split.
      * apply List.Forall_forall. intros c Hc.
        destruct (Hsrc c Hc) as [[Hh [Hin | []]] | (d & [Hin | []] & Hs & Hr)].
        -- left. split; [exact Hh | left; exact Hin].
        -- right. exists d. split; [left; exact Hin | split; assumption].
      * eapply Forall_impl; [exact Hall |]. intros c. apply card_source_cons.
Qed.
End Parsing.

Section ParsingExamples.
Import Json Parse Samples.

Lemma parse_cards_provenance_witness :
  [hidden; mkCard "spades" "A"]
  = omap entry_card [JStr "hidden"; JInt 7; card_json "spades" "A"]
  /\ (length [hidden; mkCard "spades" "A"]
   <= length [JStr "hidden"; JInt 7; card_json "spades" "A"])%nat
  /\ Forall (card_source [JStr "hidden"; JInt 7; card_json "spades" "A"])
       [hidden; mkCard "spades" "A"].
Proof.
  apply (parse_cards_provenance [JStr "hidden"; JInt 7; card_json "spades" "A"]
           [hidden; mkCard "spades" "A"]).
  reflexivity.
Defined.
End ParsingExamples.

Section ParsedState.
Import Json Parse.
Variable as_record : gmap string json -> gmap string pyval.

Lemma parse_hand_state_inv
    (data : gmap string json) (agent_id : option string) (st : HandState) :
  parse_hand_state as_record data agent_id = Some st ->
  exists hand players,
    hand_of data = Some hand
    /\ players_of hand = Some players
    /\ own_cards (seated players agent_id) = Some (your_cards st)
    /\ own_int (seated players agent_id) "bet" = Some (your_bet st)
    /\ own_int (seated players agent_id) "chips" = Some (your_chips st)
    /\ as_int (get hand "current_bet" (JInt 0)) = Some (current_bet st)
    /\ as_int (get hand "pot" (JInt 0)) = Some (pot st)
    /\ as_str (get hand "phase" (JStr "waiting")) = Some (phase st)
    /\ is_your_turn st = eq_opt_str (get data "current_player" JNull) agent_id
    /\ active_players st = Z.of_nat (length (standing players)).
Proof.
  unfold parse_hand_state. intros H.
  repeat match type of H with
         | (?m ≫= _) = Some _ =>
             destruct m eqn:?; cbn [mbind option_bind] in H; [| discriminate H]
         | (let _ := _ in _) = Some _ => cbv zeta in H
         end.
  injection H as <-. eexists _, _. cbn. repeat split; eassumption.
Qed.

Lemma find_player_none (players : list (gmap string json)) (agent_id : option string) :
  Forall (fun p => eq_opt_str (get p "agent_id" JNull) agent_id = false) players ->
  find_player players agent_id = None.
Proof.
  induction 1 as [| p players Hp _ IH]; [reflexivity |].
  cbn [find_player]. rewrite Hp. exact IH.
Qed.

Lemma find_player_first
    (before after : list (gmap string json)) (p : gmap string json)
    (agent_id : option string) :
  Forall (fun q => eq_opt_str (get q "agent_id" JNull) agent_id = false) before ->
  eq_opt_str (get p "agent_id" JNull) agent_id = true ->
  find_player (before ++ p :: after) agent_id = Some p.
Proof.
  intros Hbefore Hp. induction Hbefore as [| q before Hq _ IH]; cbn [app find_player].
  - rewrite Hp. reflexivity.
  - rewrite Hq. exact IH.
Qed.

(** X13. When no player of the state has the caller's [agent_id] (not
    seated, or no hand yet), [parse_hand_state] gives an empty hand, a bet of
    0 and 0 chips, and the policy answers such a state with a check,
    "Waiting for cards". *)
Theorem parse_hand_state_absent
    (data hand : gmap string json) (players : list (gmap string json))
    (agent_id : option string) (st : HandState) (rnd : float) :
  parse_hand_state as_record data agent_id = Some st ->
  hand_of data = Some hand -> players_of hand = Some players ->
  Forall (fun p => eq_opt_str (get p "agent_id" JNull) agent_id = false) players ->
  your_cards st = [] /\ your_bet st = 0 /\ your_chips st = 0
  /\ decide_action st rnd = Return ("check", None, "Waiting for cards").
Proof.
  intros Hparse Hhand Hplayers Hnone.
  destruct (parse_hand_state_inv _ _ _ Hparse)
    as (hand' & players' & Hhand' & Hplayers' & Hcards & Hbet & Hchips & _).
  rewrite Hhand in Hhand'. injection Hhand' as <-.
  rewrite Hplayers in Hplayers'. injection Hplayers' as <-.
  unfold seated in *. rewrite (find_player_none _ _ Hnone) in *.
  cbn in Hcards, Hbet, Hchips.
  injection Hcards as Hcards. injection Hbet as Hbet. injection Hchips as Hchips.
  repeat split; try congruence.
  unfold decide_action. rewrite <- Hcards. reflexivity.
Qed.

Lemma standing_not_folded (players : list (gmap string json)) :
  standing players
  = filter (fun p => truthy (get p "is_folded" JNull) = false) players.
Proof.
  unfold standing. induction players as [| p players IH]; [reflexivity |].
  rewrite !filter_cons, IH.
  destruct (truthy (get p "is_folded" JNull)) eqn:Hp; cbn [negb].
  - rewrite decide_False by (cbn; tauto).
    rewrite decide_False by discriminate. reflexivity.
  - rewrite decide_True by (cbn; tauto).
    rewrite decide_True by reflexivity. reflexivity.
Qed.

(** X14. [active_players] is the number of players without a truthy
    [is_folded] (a record without the key counts as playing), and with the
    number of those that have one it adds up to the number of players.  So
    it lies between 0 and the number of players, and equals that number
    exactly when no player is marked folded. *)
Theorem active_players_count
    (data hand : gmap string json) (players : list (gmap string json))
    (agent_id : option string) (st : HandState) :
  parse_hand_state as_record data agent_id = Some st ->
  hand_of data = Some hand -> players_of hand = Some players ->
  active_players st
  = Z.of_nat (length (filter (fun p => truthy (get p "is_folded" JNull) = false)
                        players))
  /\ active_players st
     + Z.of_nat (length (filter (fun p => truthy (get p "is_folded" JNull) = true)
                           players))
     = Z.of_nat (length players)
  /\ 0 <= active_players st <= Z.of_nat (length players)
  /\ (active_players st = Z.of_nat (length players)
      <-> Forall (fun p => truthy (get p "is_folded" JNull) = false) players).
Proof.
  intros Hparse Hhand Hplayers.
  destruct (parse_hand_state_inv _ _ _ Hparse)
    as (hand' & players' & Hhand' & Hplayers' & _ & _ & _ & _ & _ & _ & _ & Hactive).
  rewrite Hhand in Hhand'. injection Hhand' as <-.
  rewrite Hplayers in Hplayers'. injection Hplayers' as <-.
  rewrite Hactive, standing_not_folded. clear.
  induction players as [| p players (IHcount & IHsum & IHle & IHiff)].
  - repeat split; try (cbn; lia). constructor.
  - rewrite !filter_cons.
    destruct (truthy (get p "is_folded" JNull)) eqn:Hp.
    + rewrite decide_False by discriminate. rewrite decide_True by reflexivity.
      cbn [length]. repeat split; try lia.
      intros Hall. inversion Hall; congruence.
    + rewrite decide_True by reflexivity. rewrite decide_False by discriminate.
      cbn [length]. repeat split; try lia.
      * intros Heq. constructor; [exact Hp | apply IHiff; lia].
      * intros Hall. inversion Hall as [| ? ? _ Hrest]; subst.
        apply IHiff in Hrest. lia.
Qed.

(** X15. [is_your_turn] holds exactly when the state's [current_player] is
    the caller's id; for a client that has no id yet ([None]), it holds
    exactly when the state has no [current_player] or a null one. *)
Theorem is_your_turn_iff
    (data : gmap string json) (agent_id : option string) (st : HandState) :
  parse_hand_state as_record data agent_id = Some st ->
  is_your_turn st = true
  <-> match agent_id with
      | Some id => data !! "current_player" = Some (JStr id)
      | None => data !! "current_player" = None
                \/ data !! "current_player" = Some JNull
      end.
Proof.
  intros Hparse.
  destruct (parse_hand_state_inv _ _ _ Hparse)
    as (_ & _ & _ & _ & _ & _ & _ & _ & _ & _ & -> & _).
  unfold get. destruct (data !! "current_player") as [[| b | n | s | l | d] |];
    destruct agent_id as [id |]; cbn; split; try discriminate; try tauto;
    try (intros [H | H]; discriminate).
  - intros Heq. apply String.eqb_eq in Heq. congruence.
  - intros [= ->]. apply String.eqb_refl.
Qed.

(** X16. The first player whose [agent_id] equals the caller's is the one
    read, whatever follows it in the list: the bet, the chips and the cards
    of the state are that record's ([0] and no cards for a key it lacks). *)
Theorem parse_hand_state_first_match
    (data hand : gmap string json) (before after : list (gmap string json))
    (p : gmap string json) (agent_id : option string) (st : HandState) :
  parse_hand_state as_record data agent_id = Some st ->
  hand_of data = Some hand -> players_of hand = Some (before ++ p :: after) ->
  Forall (fun q => eq_opt_str (get q "agent_id" JNull) agent_id = false) before ->
  eq_opt_str (get p "agent_id" JNull) agent_id = true ->
  as_int (get p "bet" (JInt 0)) = Some (your_bet st)
  /\ as_int (get p "chips" (JInt 0)) = Some (your_chips st)
  /\ (as_list (get p "cards" (JList [])) ≫= parse_cards) = Some (your_cards st).
Proof.
  intros Hparse Hhand Hplayers Hbefore Hp.
  destruct (parse_hand_state_inv _ _ _ Hparse)
    as (hand' & players' & Hhand' & Hplayers' & Hcards & Hbet & Hchips & _).
  rewrite Hhand in Hhand'. injection Hhand' as <-.
  rewrite Hplayers in Hplayers'. injection Hplayers' as <-.
  unfold seated in *. rewrite (find_player_first _ _ _ _ Hbefore Hp) in *.
  cbn [truthy] in *. destruct (Nat.eqb_spec (size p) 0) as [Hempty | _]; cbn [negb] in *.
  - apply map_size_empty_inv in Hempty. subst p.
    unfold get in *. rewrite !lookup_empty. cbn. repeat split; assumption.
  - repeat split; assumption.
Qed.
End ParsedState.

Section ParsedStateExamples.
Import Json Parse Samples.

Lemma parse_hand_state_absent_witness :
  your_cards watcher_state = [] /\ your_bet watcher_state = 0
  /\ your_chips watcher_state = 0
  /\ decide_action watcher_state 0x1p-1%float
     = Return ("check", None, "Waiting for cards").
Proof.
  apply (parse_hand_state_absent no_record state_payload hand_json [villain; hero]
           (Some "a3")).
  - reflexivity.
  - reflexivity.
  - reflexivity.
  - repeat constructor.
Defined.

Lemma active_players_count_witness :
  active_players hero_state
  = Z.of_nat (length (filter (fun p => truthy (get p "is_folded" JNull) = false)
                        [villain; hero]))
  /\ active_players hero_state
     + Z.of_nat (length (filter (fun p => truthy (get p "is_folded" JNull) = true)
                           [villain; hero]))
     = Z.of_nat (length [villain; hero])
  /\ 0 <= active_players hero_state <= Z.of_nat (length [villain; hero])
  /\ (active_players hero_state = Z.of_nat (length [villain; hero])
      <-> Forall (fun p => truthy (get p "is_folded" JNull) = false) [villain; hero]).
Proof.
  apply (active_players_count no_record state_payload hand_json [villain; hero]
           (Some "a1")).
  - reflexivity.
  - reflexivity.
  - reflexivity.
Defined.

Lemma is_your_turn_iff_witness :
  is_your_turn hero_state = true
  <-> state_payload !! "current_player" = Some (JStr "a1").
Proof.
  apply (is_your_turn_iff no_record state_payload (Some "a1") hero_state).
  reflexivity.
Defined.

Lemma parse_hand_state_first_match_witness :
  as_int (get hero "bet" (JInt 0)) = Some (your_bet hero_state)
  /\ as_int (get hero "chips" (JInt 0)) = Some (your_chips hero_state)
  /\ (as_list (get hero "cards" (JList [])) ≫= parse_cards)
     = Some (your_cards hero_state).
Proof.
  apply (parse_hand_state_first_match no_record state_payload hand_json
           [villain] [] hero (Some "a1")).
  - reflexivity.
  - reflexivity.
  - reflexivity.
  - repeat constructor.
  - reflexivity.
Defined.
End ParsedStateExamples.

(** * Properties of the REST client *)

Section RestClient.
Import Json Rest.
Variable http : list request -> request -> response.

Lemma requests_of_app (t1 t2 : list event) :
  requests_of (t1 ++ t2) = requests_of t1 ++ requests_of t2.
Proof. unfold requests_of. apply flat_map_app. Qed.

Lemma requests_of_logged (self : LAISVegas) (msg : string) :
  requests_of (logged self msg) = [].
Proof. unfold logged. destruct (debug self); reflexivity. Qed.

Lemma log_run (self : LAISVegas) (msg : string) (w : world) :
  lift_out (_log self msg) w = (Return tt, (fst w, snd w ++ logged self msg)).
Proof.
  unfold lift_out, _log, print, logged.
  destruct (debug self); cbn; [reflexivity |]. rewrite app_nil_r. reflexivity.
Qed.

Lemma request_run (m endpoint : string) (data : option (gmap string json))
    (self : LAISVegas) (trace : list event) :
  known_method m ->
  _request http m endpoint data None (self, trace)
  = (match http (requests_of trace) (request_of self m endpoint data) with
     | RespOk result => Return result
     | RespFail status_code error => Raise (http_error status_code error)
     | RespRaises e => Raise e
     end,
     (self, trace ++ logged self (m +:+ " " +:+ endpoint)
            ++ [Sent (request_of self m endpoint data)])).
Proof.
  intros Hm. unfold _request, get_self, raise, request_of, http_error.
  unfold mbind, PyM_bind, mret, PyM_ret. cbn [fst snd].
  rewrite log_run. cbn [fst snd].
  destruct Hm as [-> | [-> | ->]]; cbn [String.eqb Ascii.eqb Bool.eqb andb];
    unfold send; cbn [fst snd];
    rewrite requests_of_app, requests_of_logged, app_nil_r, <- app_assoc;
    destruct (http _ _) as [result | status_code error | e]; try reflexivity;
    destruct (status_code =? 401); try reflexivity;
    destruct ((status_code =? 400) || (status_code =? 403)); reflexivity.
Qed.

(** X17. [_request] with one of its three methods makes exactly one
    request and leaves the client as it was; it returns the object of an
    [ok] response and turns a failure into an exception carrying the
    server's error text ("Unknown error" when there is none): a 401 into
    [AuthenticationError], a 400 or 403 into [GameError], any other status
    into [LAISVegasError].  Any other method raises [ValueError] and nothing
    is sent. *)
Theorem request_errors (m endpoint : string) (data : option (gmap string json))
    (self : LAISVegas) (trace : list event) :
  let req := request_of self m endpoint data in
  let run := _request http m endpoint data None (self, trace) in
  (known_method m ->
   fst (snd run) = self
   /\ requests_of (snd (snd run)) = requests_of trace ++ [req]
   /\ (forall result, http (requests_of trace) req = RespOk result ->
       fst run = Return result)
   /\ (forall status_code error,
         http (requests_of trace) req = RespFail status_code error ->
         fst run
         = Raise (Exc (if status_code =? 401 then "AuthenticationError"
                       else if (status_code =? 400) || (status_code =? 403)
                            then "GameError"
                            else "LAISVegasError")
                    (default "Unknown error" error))))
  /\ (~ known_method m ->
      fst run = Raise (Exc "ValueError" ("Unknown method: " +:+ m))
      /\ fst (snd run) = self
      /\ requests_of (snd (snd run)) = requests_of trace).
Proof.
  cbv zeta. split.
  - intros Hm. rewrite request_run by exact Hm. cbn [fst snd].
    repeat split.
    + rewrite !requests_of_app, requests_of_logged. reflexivity.
    + intros result ->. reflexivity.
    + intros status_code error ->. reflexivity.
  - intros Hm. unfold known_method in Hm.
    unfold _request, get_self, raise. unfold mbind, PyM_bind, mret, PyM_ret.
    cbn [fst snd]. rewrite log_run. cbn [fst snd].
    destruct (String.eqb_spec m "GET"); [tauto |].
    destruct (String.eqb_spec m "POST"); [tauto |].
    destruct (String.eqb_spec m "PATCH"); [tauto |].
    cbn [fst snd]. repeat split.
    rewrite requests_of_app, requests_of_logged, app_nil_r. reflexivity.
Qed.

Lemma require_table_run (table_id : option string) (self : LAISVegas)
    (trace : list event) :
  require_table table_id (self, trace)
  = (if str_truthy (py_or table_id (current_table self))
     then Return (default "" (py_or table_id (current_table self)))
     else Raise (Exc "GameError" "No table specified"),
     (self, trace)).
Proof.
  unfold require_table, get_self, raise. unfold mbind, PyM_bind, mret, PyM_ret.
  cbn [fst snd]. destruct (str_truthy _); reflexivity.
Qed.

(** X18. The operations that need a table (leaving, acting, reading and
    sending chat) raise [GameError] "No table specified" when no table is
    given and none is current, an empty name counting as none; nothing is
    sent or printed and the client is unchanged. *)
Theorem no_table_no_request (table_id : option string) (self : LAISVegas)
    (trace : list event) :
  str_truthy table_id = false -> str_truthy (current_table self) = false ->
  let refused {A} : outcome A * world :=
    (Raise (Exc "GameError" "No table specified"), (self, trace)) in
  leave_table http table_id (self, trace) = refused
  /\ (forall a amount reasoning,
        action http a amount table_id reasoning (self, trace) = refused)
  /\ (forall limit, get_chat http table_id limit (self, trace) = refused)
  /\ (forall content, send_chat http content table_id (self, trace) = refused).
Proof.
  intros Hgiven Hcurrent. cbv zeta.
  assert (Hnone : str_truthy (py_or table_id (current_table self)) = false).
  { unfold py_or. rewrite Hgiven. exact Hcurrent. }
  unfold leave_table, action, get_chat, send_chat.
  unfold mbind, PyM_bind. rewrite require_table_run, Hnone.
  repeat split.
Qed.

Lemma leave_table_run (table_id : option string) (self : LAISVegas)
    (trace : list event) :
  str_truthy (py_or table_id (current_table self)) = true ->
  let t := default "" (py_or table_id (current_table self)) in
  let endpoint := "/api/tables/" +:+ t +:+ "/leave" in
  let req := request_of self "POST" endpoint None in
  leave_table http table_id (self, trace)
  = (match http (requests_of trace) req with
     | RespOk result => Return result
     | RespFail status_code error => Raise (http_error status_code error)
     | RespRaises e => Raise e
     end,
     (match http (requests_of trace) req with
      | RespOk _ =>
          with_table self (if bool_decide (current_table self = Some t) then None
                           else current_table self)
      | _ => self
      end,
      trace ++ logged self ("POST " +:+ endpoint) ++ [Sent req])).
Proof.
  intros Htable. cbv zeta.
  unfold leave_table. unfold mbind at 1, PyM_bind at 1.
  rewrite require_table_run, Htable.
  unfold mbind at 1, PyM_bind at 1.
  rewrite request_run by (right; left; reflexivity).
  destruct (http _ _) as [result | status_code error | e]; try reflexivity.
  unfold get_self, set_current_table, mbind, PyM_bind, mret, PyM_ret. cbn [fst snd].
  destruct (current_table self) as [current |] eqn:Hcurrent.
  - destruct (String.eqb_spec (default "" (py_or table_id (Some current))) current)
      as [Heq | Hne]; cbn [fst snd].
    + rewrite bool_decide_true by congruence. reflexivity.
    + rewrite bool_decide_false by congruence.
      unfold with_table. rewrite <- Hcurrent. destruct self; reflexivity.
  - rewrite bool_decide_false by discriminate.
    unfold with_table. rewrite <- Hcurrent. destruct self; reflexivity.
Qed.

(** X19. [leave_table], when the server accepts, forgets the current table
    only if it is the table that was left: leaving another table by name
    keeps the current one.  When the request fails the client is unchanged. *)
Theorem leave_table_current (table_id : option string) (self : LAISVegas)
    (trace : list event) :
  str_truthy (py_or table_id (current_table self)) = true ->
  let t := default "" (py_or table_id (current_table self)) in
  let req := request_of self "POST" ("/api/tables/" +:+ t +:+ "/leave") None in
  let run := leave_table http table_id (self, trace) in
  (forall result,
      http (requests_of trace) req = RespOk result ->
      fst run = Return result
      /\ fst (snd run)
         = with_table self (if bool_decide (current_table self = Some t) then None
                            else current_table self))
  /\ ((forall result, http (requests_of trace) req <> RespOk result) ->
      fst (snd run) = self /\ exists e, fst run = Raise e).
Proof.
  intros Htable. cbv zeta. rewrite leave_table_run by exact Htable. cbv zeta.
  split.
  - intros result ->. split; reflexivity.
  - intros Hfail.
    destruct (http _ _) as [result | status_code error | e] eqn:Hresp;
      [exfalso; apply (Hfail result); reflexivity | |]; cbn [fst snd];
      (split; [reflexivity | eexists; reflexivity]).
Qed.

Lemma join_table_run (t : string) (buy_in : Z) (seat : option Z)
    (self : LAISVegas) (trace : list event) :
  let data : gmap string json :=
    match seat with
    | Some n => <["seat" := JInt n]> {["buy_in" := JInt buy_in]}
    | None => {["buy_in" := JInt buy_in]}
    end in
  let endpoint := "/api/tables/" +:+ t +:+ "/join" in
  let req := request_of self "POST" endpoint (Some data) in
  join_table http t buy_in seat (self, trace)
  = (match http (requests_of trace) req with
     | RespOk result => Return result
     | RespFail status_code error => Raise (http_error status_code error)
     | RespRaises e => Raise e
     end,
     (match http (requests_of trace) req with
      | RespOk _ => with_table self (Some t)
      | _ => self
      end,
      trace ++ logged self ("POST " +:+ endpoint) ++ [Sent req])).
Proof.
  cbv zeta. unfold join_table. unfold mbind at 1, PyM_bind at 1.
  rewrite request_run by (right; left; reflexivity).
  destruct seat; destruct (http _ _); reflexivity.
Qed.

(** X20. [join_table] makes the joined table current exactly when the
    request succeeds; when the server refuses, or the call fails, the
    exception leaves [join_table] and the current table is the one it was. *)
Theorem join_table_current (t : string) (buy_in : Z) (seat : option Z)
    (self : LAISVegas) (trace : list event) :
  let data : gmap string json :=
    match seat with
    | Some n => <["seat" := JInt n]> {["buy_in" := JInt buy_in]}
    | None => {["buy_in" := JInt buy_in]}
    end in
  let req := request_of self "POST" ("/api/tables/" +:+ t +:+ "/join") (Some data) in
  let run := join_table http t buy_in seat (self, trace) in
  requests_of (snd (snd run)) = requests_of trace ++ [req]
  /\ (forall result,
        http (requests_of trace) req = RespOk result ->
        fst run = Return result /\ fst (snd run) = with_table self (Some t))
  /\ ((forall result, http (requests_of trace) req <> RespOk result) ->
      fst (snd run) = self /\ exists e, fst run = Raise e).
Proof.
  cbv zeta. rewrite join_table_run. cbv zeta. cbn [fst snd]. repeat split.
  - rewrite !requests_of_app, requests_of_logged. reflexivity.
  - rewrite H. reflexivity.
  - rewrite H. reflexivity.
  - destruct (http _ _) as [result | |] eqn:Hresp;
      [exfalso; apply (H result); reflexivity | reflexivity | reflexivity].
  - destruct (http _ _) as [result | |] eqn:Hresp;
      [exfalso; apply (H result); reflexivity | eexists; reflexivity
      | eexists; reflexivity].
Qed.
End RestClient.

Section RestClientExamples.
Import Json Rest Samples.

Lemma request_errors_witness :
  fst (_request refusing "POST" "/api/tables/bronze-1/action" None None
         (seated_client, []))
  = Raise (Exc "GameError" "Not your turn").
Proof.
  destruct (request_errors refusing "POST" "/api/tables/bronze-1/action" None
              seated_client []) as [Hknown _].
  destruct (Hknown (or_intror (or_introl eq_refl))) as (_ & _ & _ & Hfail).
  exact (Hfail 400 (Some "Not your turn") eq_refl).
Defined.

Lemma no_table_no_request_witness :
  leave_table accepting None (lobby_client, [])
  = (Raise (Exc "GameError" "No table specified"), (lobby_client, [])).
Proof.
  exact (proj1 (no_table_no_request accepting None lobby_client [] eq_refl eq_refl)).
Defined.

Lemma leave_table_current_witness :
  fst (snd (leave_table accepting None (seated_client, [])))
  = with_table seated_client None.
Proof.
  destruct (leave_table_current accepting None seated_client [] eq_refl)
    as [Haccepted _].
  exact (proj2 (Haccepted ∅ eq_refl)).
Defined.

Lemma join_table_current_witness :
  fst (snd (join_table accepting "silver-2" 500 None (seated_client, [])))
  = with_table seated_client (Some "silver-2").
Proof.
  destruct (join_table_current accepting "silver-2" 500 None seated_client [])
    as (_ & Haccepted & _).
  exact (proj2 (Haccepted ∅ eq_refl)).
Defined.
End RestClientExamples.

(** * Properties of the bot's handlers *)

Section BotHandlers.
Import Json Rest SimpleBot.
Variable http : list request -> request -> response.
Variable as_record : gmap string json -> gmap string pyval.







End BotHandlers.

Section BotHandlersExamples.
Import Json Rest SimpleBot Samples.


End BotHandlersExamples.

(** * Properties of the bot's record of hands *)

Section BotRecord.
Import Json Rest SimpleBot.

Lemma on_hand_result_run (data : gmap string json) (bot : SimpleBot) :
  let winners := get data "winners" (JList []) in
  let counted (won : Z) : SimpleBot :=
    mkSimpleBot (client bot) (table_id bot) (buy_in bot) (running bot)
      (hands_played bot + 1) won in
  on_hand_result data bot
  = match my_win winners (agent_id (client bot)) with
    | Return true => (Return tt, counted (hands_won bot + 1))
    | Return false => (check_names 0 (winner_names winners), counted (hands_won bot))
    | Raise e => (Raise e, counted (hands_won bot))
    end.
Proof.
  cbv zeta. unfold on_hand_result, set_counters, lift.
  unfold mbind, PyM_bind. cbn [client table_id buy_in running].
  destruct (my_win _ _) as [[|] | e]; reflexivity.
Qed.

(** X23. Every hand result counts as one hand played, also when the payload
    is malformed and the handler raises; the hands won grow by one or not at
    all, and nothing else of the bot changes.  So after any run of results
    the hands played have grown by the number of results, and a record with
    [0 <= hands_won <= hands_played] still has it. *)
Theorem record_invariant (results : list (gmap string json)) (bot : SimpleBot) :
  0 <= hands_won bot <= hands_played bot ->
  let bot' := after_results results bot in
  hands_played bot' = hands_played bot + Z.of_nat (length results)
  /\ hands_won bot <= hands_won bot' <= hands_won bot + Z.of_nat (length results)
  /\ 0 <= hands_won bot' <= hands_played bot'
  /\ client bot' = client bot /\ table_id bot' = table_id bot
  /\ buy_in bot' = buy_in bot /\ running bot' = running bot.
Proof.
  cbv zeta. revert bot.
  induction results as [| data results IH]; intros bot Hrec.
  - cbn [after_results length]. repeat split; lia.
  - cbn [after_results length].
    assert (Hstep : let b := snd (on_hand_result data bot) in
                    hands_played b = hands_played bot + 1
                    /\ hands_won bot <= hands_won b <= hands_won bot + 1
                    /\ client b = client bot /\ table_id b = table_id bot
                    /\ buy_in b = buy_in bot /\ running b = running bot).
    { cbv zeta. rewrite on_hand_result_run. cbv zeta.
      destruct (my_win _ _) as [[|] | e]; cbn; repeat split; lia. }
    cbv zeta in Hstep.
    destruct Hstep as (Hp & Hw & Hc & Ht & Hb & Hr).
    destruct (IH (snd (on_hand_result data bot))) as (Hp' & Hw' & Hi' & Hc' & Ht' & Hb' & Hr');
      [lia |].
    repeat split; try congruence; lia.
Qed.

Lemma any_winner_objects (ws : list (gmap string json)) (agent_id : option string) :
  any_winner (map JObj ws) agent_id
  = Return (existsb (fun w => eq_opt_str (get w "agent_id" JNull) agent_id) ws).
Proof.
  induction ws as [| w ws IH]; [reflexivity |].
  cbn [map any_winner existsb].
  destruct (eq_opt_str (get w "agent_id" JNull) agent_id); [reflexivity | exact IH].
Qed.

(** X24. When the winners are a list of objects, the hand counts as won
    exactly when one of them carries the client's [agent_id], and the
    handler then returns normally.  A client that has no id yet ([None])
    wins with any winner that has no [agent_id] or a null one. *)
Theorem hand_won_iff_listed
    (data : gmap string json) (bot : SimpleBot) (ws : list (gmap string json)) :
  get data "winners" (JList []) = JList (map JObj ws) ->
  let mine :=
    existsb (fun w => eq_opt_str (get w "agent_id" JNull) (agent_id (client bot))) ws in
  hands_won (snd (on_hand_result data bot)) = hands_won bot + (if mine then 1 else 0)
  /\ (mine = true -> fst (on_hand_result data bot) = Return tt)
  /\ (agent_id (client bot) = None ->
      mine = existsb (fun w => match w !! "agent_id" with
                               | None | Some JNull => true
                               | Some _ => false
                               end) ws).
Proof.
  intros Hwinners. cbv zeta. rewrite on_hand_result_run. cbv zeta.
  rewrite Hwinners. cbn [my_win]. rewrite any_winner_objects.
  split; [| split].
  - destruct (existsb _ ws); cbn [fst snd hands_won]; lia.
  - intros ->. reflexivity.
  - intros ->. clear. induction ws as [| w ws IH]; [reflexivity |].
    cbn [existsb]. rewrite IH. f_equal.
    unfold get. destruct (w !! "agent_id") as [[] |]; reflexivity.
Qed.
End BotRecord.

Section BotRecordExamples.
Import Json Rest SimpleBot Samples.

Lemma record_invariant_witness :
  let bot' := after_results [won_by "a1"; won_by "a2"; ∅] seated_bot in
  hands_played bot' = hands_played seated_bot + Z.of_nat 3
  /\ hands_won seated_bot <= hands_won bot' <= hands_won seated_bot + Z.of_nat 3
  /\ 0 <= hands_won bot' <= hands_played bot'
  /\ client bot' = client seated_bot /\ table_id bot' = table_id seated_bot
  /\ buy_in bot' = buy_in seated_bot /\ running bot' = running seated_bot.
Proof.
  apply (record_invariant [won_by "a1"; won_by "a2"; ∅] seated_bot).
  cbn. lia.
Defined.

Lemma hand_won_iff_listed_witness :
  hands_won (snd (on_hand_result (won_by "a1") seated_bot)) = hands_won seated_bot + 1.
Proof.
  exact (proj1 (hand_won_iff_listed (won_by "a1") seated_bot
                  [<["agent_id" := JStr "a1"]> {["name" := JStr "bot"]}] eq_refl)).
Defined.
End BotRecordExamples.

(** * Properties of the quick-start client's turn handling *)

Section QuickStartTurn.
Import PublicSdk QuickStart.
Variable user : string -> list pyval -> outcome pyval.
Variable action : Type.
Variable user_turn : string -> list (string * pyval) -> outcome action.
Variable sio_emit : list action -> action -> outcome unit.

Lemma on_turn_run (turn self : gmap string pyval) (sent : list action)
    (seat cb my_cards community_cards : pyval) :
  self !! "my_seat" = Some seat ->
  self !! "_on_turn_callback" = Some cb ->
  self !! "my_cards" = Some my_cards ->
  self !! "community_cards" = Some community_cards ->
  on_turn action user_turn sio_emit turn (self, sent)
  = if py_eq (dict_get turn "activePlayerSeat" PNone) seat && truthy cb
    then (a ← call_turn action user_turn cb
                (turn_arguments my_cards community_cards turn);
          _send_action action sio_emit a) (self, sent)
    else (Return tt, (self, sent)).
Proof.
  intros Hseat Hcb Hcards Hcommunity.
  unfold on_turn, on_attrs, getattr. unfold mbind at 1, PyM_bind at 1.
  cbn [fst snd]. rewrite Hseat.
  destruct (py_eq _ seat); cbn [andb]; [| reflexivity].
  unfold mbind at 1, PyM_bind at 1. cbn [fst snd]. rewrite Hcb.
  destruct (truthy cb); [| reflexivity].
  unfold mbind at 1, PyM_bind at 1. cbn [fst snd]. rewrite Hcb.
  unfold mbind at 1, PyM_bind at 1. cbn [fst snd]. rewrite Hcards.
  unfold mbind at 1, PyM_bind at 1. cbn [fst snd]. rewrite Hcommunity.
  reflexivity.
Qed.

(** X25. The turn callback sees the table as the earlier events left it: on
    the client's own seat, after a [hand:start] and a [phase] event, it is
    called with the hole cards of the first, the community cards of the
    second and the amounts of the turn payload (0, and [False] for
    [can_check], where the payload has none).  What it returns is emitted
    once, unread; when it raises, or the emit fails, nothing is emitted.
    The attributes are not written. *)
Theorem turn_callback_sees_table
    (self start phase turn : gmap string pyval) (cb : string) (seat : pyval)
    (sent : list action) :
  self !! "_on_turn_callback" = Some (PCallable cb) ->
  self !! "my_seat" = Some seat ->
  self !! "sio" = Some (PObject "socketio.Client") ->
  py_eq (dict_get turn "activePlayerSeat" PNone) seat = true ->
  let dealt := snd (on_hand_start user start self) in
  let shown := snd (on_phase phase dealt) in
  on_turn action user_turn sio_emit turn (shown, sent)
  = match user_turn cb
            (turn_arguments (dict_get start "yourCards" (PList []))
               (dict_get phase "communityCards" (PList [])) turn) with
    | Return a =>
        match sio_emit sent a with
        | Return _ => (Return tt, (shown, sent ++ [a]))
        | Raise e => (Raise e, (shown, sent))
        end
    | Raise e => (Raise e, (shown, sent))
    end.
Proof.
  intros Hcb Hseat Hsio Hmine. cbv zeta.
  rewrite on_hand_start_state, on_phase_run. cbn [snd].
  set (shown := <["community_cards" := _]> _).
  rewrite (on_turn_run turn shown sent seat (PCallable cb)
             (dict_get start "yourCards" (PList []))
             (dict_get phase "communityCards" (PList []))).
  - rewrite Hmine. cbn [truthy andb call_turn].
    unfold mbind, PyM_bind, lift.
    destruct (user_turn cb _) as [a | e]; [| reflexivity].
    unfold _send_action, on_attrs, getattr. unfold mbind, PyM_bind. cbn [fst snd].
    replace (shown !! "sio") with (Some (PObject "socketio.Client")).
    + cbn. destruct (sio_emit sent a); reflexivity.
    + subst shown. rewrite !lookup_insert_ne by discriminate. symmetry. exact Hsio.
  - subst shown. rewrite !lookup_insert_ne by discriminate. exact Hseat.
  - subst shown. rewrite !lookup_insert_ne by discriminate. exact Hcb.
  - subst shown. rewrite lookup_insert_ne by discriminate.
    rewrite lookup_insert_ne by discriminate. apply lookup_insert_eq.
  - subst shown. apply lookup_insert_eq.
Qed.

(** X26. A turn that is not the client's does nothing: after [table:joined]
    a [turn] event whose [activePlayerSeat] differs from the seat of the
    join leaves the attributes as they are, calls no callback and emits
    nothing.  The same holds on the client's own seat as long as no turn
    callback is registered. *)
Theorem turn_of_another_seat_ignored
    (self joined turn : gmap string pyval) (sent : list action) :
  let seated := snd (on_joined joined self) in
  (py_eq (dict_get turn "activePlayerSeat" PNone) (dict_get joined "seat" PNone) = false
   \/ self !! "_on_turn_callback" = Some PNone) ->
  on_turn action user_turn sio_emit turn (seated, sent) = (Return tt, (seated, sent)).
Proof.
  cbv zeta. intros Hskip.
  unfold on_joined, setattr. unfold mbind, PyM_bind. cbn [snd].
  unfold on_turn, on_attrs, getattr. unfold mbind at 1, PyM_bind at 1. cbn [fst snd].
  rewrite lookup_insert_ne by discriminate. rewrite lookup_insert_eq.
  destruct (py_eq _ _) eqn:Hseat; [| reflexivity].
  destruct Hskip as [Hother | Hnone]; [discriminate |].
  unfold mbind at 1, PyM_bind at 1. cbn [fst snd].
  rewrite !lookup_insert_ne by discriminate. rewrite Hnone. reflexivity.
Qed.
End QuickStartTurn.

Section QuickStartTurnExamples.
Import PublicSdk QuickStart Samples.

Lemma turn_callback_sees_table_witness :
  let dealt := snd (on_hand_start (fun _ _ => Return PNone) hand_start_payload
                      ready_client) in
  let shown := snd (on_phase {["communityCards" := PList [PStr "2h"; PStr "9c"; PStr "Js"]]}
                      dealt) in
  on_turn string (fun _ _ => Return "call") (fun _ _ => Return tt) (turn_payload 2)
    (shown, [])
  = (Return tt, (shown, [] ++ ["call"])).
Proof.
  apply (turn_callback_sees_table (fun _ _ => Return PNone) string
           (fun _ _ => Return "call") (fun _ _ => Return tt)
           ready_client hand_start_payload
           {["communityCards" := PList [PStr "2h"; PStr "9c"; PStr "Js"]]}
           (turn_payload 2) "my_turn" (PInt 2) []).
  - reflexivity.
  - reflexivity.
  - reflexivity.
  - reflexivity.
Defined.

Lemma turn_of_another_seat_ignored_witness :
  let seated := snd (on_joined (<["seat" := PInt 2]> {["chips" := PInt 1000]})
                       (init "casino_key" "https://lais-vegas.com")) in
  on_turn string (fun _ _ => Return "call") (fun _ _ => Return tt) (turn_payload 3)
    (seated, [])
  = (Return tt, (seated, [])).
Proof.
  apply (turn_of_another_seat_ignored string (fun _ _ => Return "call")
           (fun _ _ => Return tt) (init "casino_key" "https://lais-vegas.com")
           (<["seat" := PInt 2]> {["chips" := PInt 1000]}) (turn_payload 3) []).
  left. reflexivity.
Defined.
End QuickStartTurnExamples.

